(** * Query understanding and retrieval orchestration of the RAG pipeline

    A shallow embedding of [fastapi_app/query_rewriter.py] and
    [fastapi_app/rag_simple.py], with the properties their specification
    states about them.

    Conventions.
    - Values the Python code leaves untyped ([Any], the values of a [dict],
      whatever [json.loads] returns) are values of [pyval].
    - A [dict] keyed by strings is a [gmap string _].
    - A [str] is a [string] whose characters are code points below 256.
    - A [float] is the rational number it denotes.
    - A Python exception is a [Raise] result; code that talks to the
      embedding, retrieval and chat-completion services runs in the monad
      [M], which threads the state of the outside world and logs every call
      made to a service. *)

From Stdlib Require Import ZArith QArith Ascii String List.
From stdpp Require Import base option strings pretty list gmap.

Set Warnings "-register-all".
#[local] Open Scope string_scope.

(* ===================================================================== *)
(** ** Python values and exceptions *)
(* ===================================================================== *)

Inductive pyval : Type :=
| PNone
| PBool (b : bool)
| PInt (z : Z)
| PFloat (q : Q)
| PStr (s : string)
| PList (l : list pyval)
| PDict (d : gmap string pyval).

Inductive exn : Type :=
| IndexError
| KeyError (key : string)
| TypeError
| AttributeError
| JSONDecodeError
| ServiceError (msg : string).

Inductive result (A : Type) : Type :=
| Ok (x : A)
| Raise (e : exn).
Arguments Ok {A} x.
Arguments Raise {A} e.

#[global] Instance result_ret : MRet result := λ A x, Ok x.
#[global] Instance result_bind : MBind result :=
  λ A B f m, match m with Ok x => f x | Raise e => Raise e end.

Definition raises {A : Type} (r : result A) : Prop := ∃ e, r = Raise e.

(** [bool(v)]. *)
Definition py_truthy (v : pyval) : bool :=
  match v with
  | PNone => false
  | PBool b => b
  | PInt z => negb (z =? 0)%Z
  | PFloat q => negb (Qnum q =? 0)%Z
  | PStr s => negb (String.eqb s "")
  | PList l => match l with [] => false | _ => true end
  | PDict d => negb (bool_decide (d = ∅))
  end.

(** [v == s] for a string literal [s], and [v == None]. *)
Definition py_eq_str (v : pyval) (s : string) : bool :=
  match v with PStr t => String.eqb t s | _ => false end.

Definition py_is_none (v : pyval) : bool :=
  match v with PNone => true | _ => false end.

(** [d.get(key)] and [d.get(key, dflt)] on a dict. *)
Definition dict_get (d : gmap string pyval) (key : string) (dflt : pyval)
  : pyval :=
  default dflt (d !! key).

(** [d[key]] on a dict. *)
Definition dict_getitem (d : gmap string pyval) (key : string) : result pyval :=
  match d !! key with
  | Some v => Ok v
  | None => Raise (KeyError key)
  end.

(** [v.get(key)] on an arbitrary value: only a dict has the method. *)
Definition py_get (v : pyval) (key : string) : result pyval :=
  match v with
  | PDict d => Ok (dict_get d key PNone)
  | _ => Raise AttributeError
  end.

(** [v[key]] with a string key on an arbitrary value: a dict looks the key
    up, a str or list rejects a non-integer index, nothing else is
    subscriptable. *)
Definition py_getitem (v : pyval) (key : string) : result pyval :=
  match v with
  | PDict d => dict_getitem d key
  | _ => Raise TypeError
  end.

(** [needle in hay] for two strs. *)
Fixpoint is_substring (needle hay : string) : bool :=
  String.prefix needle hay
  || match hay with
     | EmptyString => false
     | String _ hay' => is_substring needle hay'
     end.

(** [key in v] with a string key on an arbitrary value. *)
Definition py_contains (key : string) (v : pyval) : result bool :=
  match v with
  | PDict d => Ok (bool_decide (is_Some (d !! key)))
  | PStr s => Ok (is_substring key s)
  | PList l => Ok (existsb (λ x, py_eq_str x key) l)
  | _ => Raise TypeError
  end.

(** [a + b]: the code only ever adds strs; any other pair of operands that
    involves a str is a [TypeError]. *)
Definition py_add_str (a : pyval) (b : string) : result string :=
  match a with
  | PStr s => Ok (s ++ b)
  | _ => Raise TypeError
  end.

(* ===================================================================== *)
(** ** Strings *)
(* ===================================================================== *)

(** The line feed of the literals ["\n"]. *)
Definition LF : string := String (ascii_of_nat 10) EmptyString.

(** [str.isspace] on one code point below 256: TAB, LF, VT, FF, CR, the
    separators FS, GS, RS, US, the space, NEL and the no-break space. *)
Definition is_space (c : ascii) : bool :=
  let n := nat_of_ascii c in
  ((9 <=? n)%nat && (n <=? 13)%nat) || ((28 <=? n)%nat && (n <=? 32)%nat)
  || (n =? 133)%nat || (n =? 160)%nat.

Fixpoint lstrip (s : string) : string :=
  match s with
  | EmptyString => EmptyString
  | String c s' => if is_space c then lstrip s' else s
  end.

(** [rstrip] keeps a character when it is not a space or when something
    is kept after it. *)
Fixpoint rstrip (s : string) : string :=
  match s with
  | EmptyString => EmptyString
  | String c s' =>
      match rstrip s' with
      | EmptyString => if is_space c then EmptyString else String c EmptyString
      | t => String c t
      end
  end.

(** [s.strip()]. *)
Definition strip (s : string) : string := rstrip (lstrip s).

(* ===================================================================== *)
(** ** The chat-completion record ([openai.types.chat]) *)
(* ===================================================================== *)

Record Function : Type := mkFunction {
  name : string;
  arguments : string
}.

Record ToolCall : Type := mkToolCall {
  type : string;
  function : Function
}.

Record ChatCompletionMessage : Type := mkMessage {
  content : option string;
  tool_calls : option (list ToolCall)
}.

Record Choice : Type := mkChoice {
  message : ChatCompletionMessage
}.

Record ChatCompletion : Type := mkChatCompletion {
  choices : list Choice
}.

(* ===================================================================== *)
(** ** query_rewriter.py *)
(* ===================================================================== *)

(** The dict literal appended to [filters]. *)
Record Filter : Type := mkFilter {
  column : string;
  comparison_operator : pyval;
  value : pyval
}.

Section QueryRewriter.

(** [json.loads], of Python's standard library. *)
Variable json_loads : string → result pyval.

(** Lines 69-88: the body run for one [search_database] invocation.
    [search_query] is overwritten, [filters] is appended to. *)
Definition search_database_call (function : Function) (filters : list Filter)
  : result (pyval * list Filter) :=
  arg ← json_loads (arguments function);
  search_query ← py_get arg "search_query";
  has_price ← py_contains "price_filter" arg;
  filters ←
    (if has_price : bool then
       price_filter ← py_getitem arg "price_filter";
       op ← py_getitem price_filter "comparison_operator";
       v ← py_getitem price_filter "value";
       mret (filters ++ [mkFilter "price" op v])%list
     else mret filters);
  has_brand ← py_contains "brand_filter" arg;
  filters ←
    (if has_brand : bool then
       brand_filter ← py_getitem arg "brand_filter";
       op ← py_getitem brand_filter "comparison_operator";
       v ← py_getitem brand_filter "value";
       mret (filters ++ [mkFilter "brand" op v])%list
     else mret filters);
  mret (search_query, filters).

(** The test of lines 65-68 that selects the invocations that are read. *)
Definition is_search_database (tool : ToolCall) : bool :=
  String.eqb (type tool) "function"
  && String.eqb (name (function tool)) "search_database".

(** Lines 64-88: the loop over [tool_calls], from the current values of
    [search_query] and [filters]. *)
Fixpoint scan_tool_calls (tools : list ToolCall)
    (search_query : pyval) (filters : list Filter)
  : result (pyval * list Filter) :=
  match tools with
  | [] => Ok (search_query, filters)
  | tool :: tools' =>
      if negb (String.eqb (type tool) "function") then
        scan_tool_calls tools' search_query filters
      else
        let function := function tool in
        if String.eqb (name function) "search_database" then
          '(search_query, filters) ← search_database_call function filters;
          scan_tool_calls tools' search_query filters
        else scan_tool_calls tools' search_query filters
  end.

Definition extract_search_arguments (chat_completion : ChatCompletion)
  : result (pyval * list Filter) :=
  match choices chat_completion with
  | [] => Raise IndexError
  | choice0 :: _ =>
      let response_message := message choice0 in
      let search_query := PNone in
      let filters := [] in
      match tool_calls response_message with
      | Some (tool :: tools) =>
          scan_tool_calls (tool :: tools) search_query filters
      | _ =>
          match content response_message with
          | Some query_text =>
              if negb (String.eqb query_text "")
              then Ok (PStr (strip query_text), filters)
              else Ok (search_query, filters)
          | None => Ok (search_query, filters)
          end
      end
  end.

End QueryRewriter.

(** A filter object that lacks [comparison_operator] or [value]. *)
Definition lacks_field (v : pyval) : Prop :=
  ∃ f, v = PDict f
       ∧ (f !! "comparison_operator" = None ∨ f !! "value" = None).

(** A malformed argument payload: text that [json_loads] rejects, or an
    object whose [price_filter] or [brand_filter] lacks one of its two
    fields. *)
Definition malformed (json_loads : string → result pyval) (payload : string)
  : Prop :=
  raises (json_loads payload)
  ∨ ∃ d, json_loads payload = Ok (PDict d)
         ∧ ((∃ pf, d !! "price_filter" = Some pf ∧ lacks_field pf)
            ∨ (∃ bf, d !! "brand_filter" = Some bf ∧ lacks_field bf)).

(** A str all of whose characters are spaces. *)
Fixpoint all_space (s : string) : bool :=
  match s with
  | EmptyString => true
  | String c s' => is_space c && all_space s'
  end.

(** The first and the last character of a str, if any. *)
Definition first_char (s : string) : option ascii :=
  match s with
  | EmptyString => None
  | String c _ => Some c
  end.

Fixpoint last_char (s : string) : option ascii :=
  match s with
  | EmptyString => None
  | String c EmptyString => Some c
  | String _ s' => last_char s'
  end.

(** A str that neither starts nor ends with a space. *)
Definition trimmed (s : string) : Prop :=
  (∀ c, first_char s = Some c → is_space c = false)
  ∧ (∀ c, last_char s = Some c → is_space c = false).

(* ===================================================================== *)
(** ** The collaborators of rag_simple.py *)
(* ===================================================================== *)

(** What [run] uses of a retrieved item (class [Item] of
    [postgres_models]): the text that formatting [item.id] inside an
    f-string gives, [item.to_str_for_rag()] and [item.to_dict()]. *)
Class ItemModel (Item : Type) : Type := {
  id_text : Item → string;
  to_str_for_rag : Item → string;
  to_dict : Item → pyval
}.

(** The helpers of [openai_messages_token_helper], and [str] on one of the
    messages [build_messages] returns. [build_messages] takes [model],
    [system_prompt], [new_user_message], [past_messages], [max_tokens] and
    [fallback_to_default]; [get_token_limit] takes the model and
    [default_to_minimum]. *)
Class TokenHelper (PromptMessage : Type) : Type := {
  build_messages :
    string → pyval → string → list (gmap string pyval) → Z → bool →
    result (list PromptMessage);
  get_token_limit : string → bool → Z;
  str_message : PromptMessage → string
}.

(** The keyword arguments of [chat.completions.create]. *)
Record CreateRequest (PromptMessage : Type) : Type := mkCreateRequest {
  req_model : string;
  req_messages : list PromptMessage;
  req_temperature : pyval;
  req_max_tokens : Z;
  req_n : Z;
  req_stream : bool
}.
Arguments mkCreateRequest {PromptMessage}.
Arguments req_model {PromptMessage}.
Arguments req_messages {PromptMessage}.
Arguments req_temperature {PromptMessage}.
Arguments req_max_tokens {PromptMessage}.
Arguments req_n {PromptMessage}.
Arguments req_stream {PromptMessage}.

(** The three services, each a function of the state [W] of the outside
    world: [compute_text_embedding] (text, model, deployment, dimensions),
    [searcher.search] (query text, query vector, top) and
    [openai_chat_client.chat.completions.create]. Each may raise. *)
Class Services (W Item PromptMessage : Type) : Type := {
  compute_text_embedding :
    pyval → string → option string → Z → W → result (list Q) * W;
  searcher_search :
    pyval → list Q → pyval → W → result (list Item) * W;
  chat_completions_create :
    CreateRequest PromptMessage → W → result ChatCompletion * W
}.

(** One entry of the log of service calls. *)
Inductive Call (PromptMessage : Type) : Type :=
| Embed (text : pyval) (model : string) (deployment : option string)
        (dimensions : Z)
| Search (query_text : pyval) (query_vector : list Q) (top : pyval)
| Create (request : CreateRequest PromptMessage).
Arguments Embed {PromptMessage}.
Arguments Search {PromptMessage}.
Arguments Create {PromptMessage}.

Definition is_embed {P : Type} (c : Call P) : bool :=
  match c with Embed _ _ _ _ => true | _ => false end.

Definition is_search {P : Type} (c : Call P) : bool :=
  match c with Search _ _ _ => true | _ => false end.

(* ===================================================================== *)
(** ** The monad of [run]: world state, call log, exceptions *)
(* ===================================================================== *)

Record Outcome (W P A : Type) : Type := mkOutcome {
  returned : result A;
  world : W;
  calls : list (Call P)
}.
Arguments mkOutcome {W P A}.
Arguments returned {W P A}.
Arguments world {W P A}.
Arguments calls {W P A}.

Definition M (W P A : Type) : Type := W → Outcome W P A.

#[global] Instance M_ret {W P} : MRet (M W P) :=
  λ A x w, mkOutcome (Ok x) w [].

#[global] Instance M_bind {W P} : MBind (M W P) :=
  λ A B f m w,
    let o := m w in
    match returned o with
    | Ok x =>
        let o' := f x (world o) in
        mkOutcome (returned o') (world o') (calls o ++ calls o')
    | Raise e => mkOutcome (Raise e) (world o) (calls o)
    end.

(** A step that touches no service. *)
Definition pure_step {W P A} (r : result A) : M W P A :=
  λ w, mkOutcome r w [].

(** A call to a service, logged whether it returns or raises. *)
Definition service_call {W P A} (c : Call P) (service : W → result A * W)
  : M W P A :=
  λ w, let '(r, w') := service w in mkOutcome r w' [c].

(* ===================================================================== *)
(** ** rag_simple.py *)
(* ===================================================================== *)

(** The attributes [__init__] sets; the three clients are the [Services]. *)
Record SimpleRAGChat : Type := mkSimpleRAGChat {
  chat_model : string;
  chat_deployment : option string;
  embed_deployment : option string;
  embed_model : string;
  embed_dimensions : Z;
  chat_token_limit : Z;
  answer_prompt_template : string
}.

(** [ThoughtStep] of [api_models], built from [title], [description] and,
    where the call passes it, [props]. *)
Record ThoughtStep : Type := mkThoughtStep {
  title : string;
  description : pyval;
  props : option (gmap string pyval)
}.

Record DataPoints : Type := mkDataPoints {
  text : list string
}.

(** The dict stored under ["context"]. *)
Record ResponseContext : Type := mkResponseContext {
  data_points : DataPoints;
  thoughts : list ThoughtStep
}.

(** One entry of [chat_resp["choices"]]: the dumped choice and the value
    under its ["context"] key, if any. *)
Record ChoiceDict : Type := mkChoiceDict {
  dumped : Choice;
  context : option ResponseContext
}.

Record ChatResp : Type := mkChatResp {
  resp_choices : list ChoiceDict
}.

(** [chat_completion_response.model_dump()]. *)
Definition model_dump (c : ChatCompletion) : ChatResp :=
  mkChatResp (map (λ ch, mkChoiceDict ch None) (choices c)).

(** [chat_resp["choices"][0]["context"] = ctx]. *)
Definition set_first_context (chat_resp : ChatResp) (ctx : ResponseContext)
  : result ChatResp :=
  match resp_choices chat_resp with
  | [] => Raise IndexError
  | ch :: rest => Ok (mkChatResp (mkChoiceDict (dumped ch) (Some ctx) :: rest))
  end.

(** [0.3] as a float: 5404319552844595 / 2^54. *)
Definition default_temperature : pyval :=
  PFloat (5404319552844595 # 18014398509481984).

(** ["\n\nSources:\n"]. *)
Definition SOURCES_HEADER : string := LF ++ LF ++ "Sources:" ++ LF.

(** [bool(s)] for a [str | None]. *)
Definition str_truthy (s : option string) : bool :=
  match s with
  | Some t => negb (String.eqb t "")
  | None => false
  end.

(** [a or b]. *)
Definition py_or (a b : pyval) : pyval := if py_truthy a then a else b.

(** Lines 45-47: the three options read from [overrides]. *)
Definition text_search_of (overrides : gmap string pyval) : bool :=
  let retrieval_mode := dict_get overrides "retrieval_mode" PNone in
  py_eq_str retrieval_mode "text" || py_eq_str retrieval_mode "hybrid"
  || py_is_none retrieval_mode.

Definition vector_search_of (overrides : gmap string pyval) : bool :=
  let retrieval_mode := dict_get overrides "retrieval_mode" PNone in
  py_eq_str retrieval_mode "vectors" || py_eq_str retrieval_mode "hybrid"
  || py_is_none retrieval_mode.

Definition top_of (overrides : gmap string pyval) : pyval :=
  dict_get overrides "top" (PInt 3).

(** [messages[-1]]. *)
Definition last_message (messages : list (gmap string pyval))
  : result (gmap string pyval) :=
  match last messages with
  | Some m => Ok m
  | None => Raise IndexError
  end.

Section RagSimple.

Context {W Item PromptMessage : Type}.
Context `{!ItemModel Item} `{!TokenHelper PromptMessage}
        `{!Services W Item PromptMessage}.

(** Line 37 and 39 of [__init__], given the text of [prompts/answer.txt]. *)
Definition init (chat_model : string) (chat_deployment : option string)
    (embed_deployment : option string) (embed_model : string)
    (embed_dimensions : Z) (answer_txt : string) : SimpleRAGChat :=
  mkSimpleRAGChat chat_model chat_deployment embed_deployment embed_model
    embed_dimensions (get_token_limit chat_model true) answer_txt.

(** Line 68: one block per retrieved item. *)
Definition source_block (item : Item) : string :=
  "[" ++ id_text item ++ "]:" ++ to_str_for_rag item ++ LF ++ LF.

Definition sources_content (results : list Item) : list string :=
  map source_block results.

(** Line 69: ["\n".join(sources_content)]. *)
Definition sources_block (results : list Item) : string :=
  String.concat LF (sources_content results).

(** Lines 83-91. *)
Definition create_request (self : SimpleRAGChat)
    (overrides : gmap string pyval) (messages : list PromptMessage)
  : CreateRequest PromptMessage :=
  mkCreateRequest
    (if str_truthy (chat_deployment self)
     then default "" (chat_deployment self)
     else chat_model self)
    messages
    (dict_get overrides "temperature" default_temperature)
    1024 1 false.

(** Lines 96-117: the three thought steps. *)
Definition thought_search_query (query_text top : pyval)
    (vector_search text_search : bool) : ThoughtStep :=
  mkThoughtStep "Search query for database" query_text
    (Some (<["top" := top]>
          (<["vector_search" := PBool vector_search]>
          (<["text_search" := PBool text_search]> ∅)))).

Definition thought_search_results (results : list Item) : ThoughtStep :=
  mkThoughtStep "Search results" (PList (map to_dict results)) None.

Definition thought_prompt (self : SimpleRAGChat)
    (messages : list PromptMessage) : ThoughtStep :=
  mkThoughtStep "Prompt to generate answer"
    (PList (map (λ message, PStr (str_message message)) messages))
    (Some (if str_truthy (chat_deployment self)
           then <["model" := PStr (chat_model self)]>
                (<["deployment" :=
                     PStr (default "" (chat_deployment self))]> ∅)
           else <["model" := PStr (chat_model self)]> ∅)).

Definition run (self : SimpleRAGChat)
    (messages : list (gmap string pyval)) (overrides : gmap string pyval)
  : M W PromptMessage ChatResp :=
  let text_search := text_search_of overrides in
  let vector_search := vector_search_of overrides in
  let top := top_of overrides in
  last ← pure_step (last_message messages);
  original_user_query ← pure_step (dict_getitem last "content");
  let past_messages := removelast messages in
  vector ←
    (if vector_search then
       service_call
         (Embed original_user_query (embed_model self)
                (embed_deployment self) (embed_dimensions self))
         (compute_text_embedding original_user_query (embed_model self)
            (embed_deployment self) (embed_dimensions self))
     else mret []);
  let query_text := if text_search then original_user_query else PNone in
  results ←
    service_call (Search query_text vector top)
      (searcher_search query_text vector top);
  let content := sources_block results in
  let response_token_limit := 1024%Z in
  let messages_token_limit :=
    (chat_token_limit self - response_token_limit)%Z in
  let system_prompt :=
    py_or (dict_get overrides "prompt_template" PNone)
          (PStr (answer_prompt_template self)) in
  question ← pure_step (py_add_str original_user_query SOURCES_HEADER);
  messages ←
    pure_step
      (build_messages (chat_model self) system_prompt (question ++ content)
         past_messages messages_token_limit true);
  let request := create_request self overrides messages in
  chat_completion_response ←
    service_call (Create request) (chat_completions_create request);
  let chat_resp := model_dump chat_completion_response in
  pure_step
    (set_first_context chat_resp
       (mkResponseContext
          (mkDataPoints (sources_content results))
          [thought_search_query query_text top vector_search text_search;
           thought_search_results results;
           thought_prompt self messages])).

End RagSimple.

(* ===================================================================== *)
(** ** The source blocks as the specification words them *)
(* ===================================================================== *)

Section SpecRendering.

Context {Item : Type} `{!ItemModel Item}.

(** The block ["[id]: <renderable text>\n\n"], with the space the
    specification writes after the colon. *)
Definition spec_source_block (item : Item) : string :=
  "[" ++ id_text item ++ "]: " ++ to_str_for_rag item ++ LF ++ LF.

(** The blocks concatenated with nothing between them. *)
Definition spec_sources_block (results : list Item) : string :=
  String.concat "" (map spec_source_block results).

End SpecRendering.

(** What the specification asks of the [top] handed to the retriever. *)
Definition is_positive_int (v : pyval) : bool :=
  match v with
  | PInt z => (0 <? z)%Z
  | _ => false
  end.

(** A log whose entries are neither embedding nor retrieval calls. *)
Definition no_retrieval_calls {P : Type} (l : list (Call P)) : Prop :=
  Forall (λ c, is_embed c = false ∧ is_search c = false) l.

(* ===================================================================== *)
(** ** A small catalogue and stand-in services, for the examples *)
(* ===================================================================== *)

Module Sample.

Record Product : Type := mkProduct {
  id : Z;
  product_name : string;
  brand : string
}.

#[global] Instance product_model : ItemModel Product := {|
  id_text p := pretty (id p);
  to_str_for_rag p := "Name:" ++ product_name p ++ " Brand:" ++ brand p;
  to_dict p :=
    PDict (<["id" := PInt (id p)]>
          (<["name" := PStr (product_name p)]>
          (<["brand" := PStr (brand p)]> ∅)))
|}.

Definition runner : Product := mkProduct 7 "Trail Runner" "AirStrider".
Definition boot : Product := mkProduct 12 "Hiking Boot" "Daybird".

(** A prompt message is a role and a content. [build_messages] here keeps
    the whole history, whatever the budget. *)
#[global] Instance token_helper : TokenHelper (string * pyval) := {|
  build_messages _ system_prompt new_user_message past_messages _ _ :=
    Ok ([("system", system_prompt)]
        ++ map (λ m : gmap string pyval,
                  (match m !! "role" with Some (PStr r) => r | _ => "" end,
                   dict_get m "content" PNone))
               past_messages
        ++ [("user", PStr new_user_message)])%list;
  get_token_limit _ _ := 4000%Z;
  str_message m := fst m
|}.

(** The world is the number of service calls made so far. The retriever
    returns the same two products for every request. *)
#[global] Instance services : Services nat Product (string * pyval) := {|
  compute_text_embedding _ _ _ _ w := (Ok [1 # 2; 1 # 4], S w);
  searcher_search _ _ _ w := (Ok [runner; boot], S w);
  chat_completions_create _ w :=
    (Ok (mkChatCompletion [mkChoice (mkMessage (Some "Try [7].") None)]),
     S w)
|}.

Definition chat : SimpleRAGChat :=
  @init (string * pyval) token_helper "gpt-4o-mini" None None
        "text-embedding-3-small" 1536 "Answer from the sources.".

Definition user_says (s : string) : gmap string pyval :=
  <["role" := PStr "user"]> (<["content" := PStr s]> ∅).

(** The double quote, and the argument payloads of the examples. *)
Definition DQ : string := String (ascii_of_nat 34) EmptyString.
Definition quoted (s : string) : string := DQ ++ s ++ DQ.

Definition payload_query : string :=
  "{" ++ quoted "search_query" ++ ": " ++ quoted "red shoes" ++ "}".

Definition payload_filters : string :=
  "{" ++ quoted "search_query" ++ ": " ++ quoted "shoes" ++ ", "
  ++ quoted "price_filter" ++ ": {" ++ quoted "comparison_operator" ++ ": "
  ++ quoted ">" ++ ", " ++ quoted "value" ++ ": 30}, "
  ++ quoted "brand_filter" ++ ": {" ++ quoted "comparison_operator" ++ ": "
  ++ quoted "==" ++ ", " ++ quoted "value" ++ ": " ++ quoted "AirStrider"
  ++ "}}".

Definition payload_price_without_value : string :=
  "{" ++ quoted "search_query" ++ ": " ++ quoted "shoes" ++ ", "
  ++ quoted "price_filter" ++ ": {" ++ quoted "comparison_operator" ++ ": "
  ++ quoted ">" ++ "}}".

Definition payload_truncated : string :=
  "{" ++ quoted "search_query" ++ ": ".

Definition price_over_30 : gmap string pyval :=
  <["comparison_operator" := PStr ">"]> (<["value" := PInt 30]> ∅).

Definition brand_airstrider : gmap string pyval :=
  <["comparison_operator" := PStr "=="]>
  (<["value" := PStr "AirStrider"]> ∅).

(** [json.loads] on the payloads above; any other text is taken as not
    decodable. *)
Definition json_loads (s : string) : result pyval :=
  if String.eqb s payload_query then
    Ok (PDict (<["search_query" := PStr "red shoes"]> ∅))
  else if String.eqb s payload_filters then
    Ok (PDict (<["search_query" := PStr "shoes"]>
              (<["price_filter" := PDict price_over_30]>
              (<["brand_filter" := PDict brand_airstrider]> ∅))))
  else if String.eqb s payload_price_without_value then
    Ok (PDict (<["search_query" := PStr "shoes"]>
              (<["price_filter" :=
                   PDict (<["comparison_operator" := PStr ">"]> ∅)]> ∅)))
  else Raise JSONDecodeError.

Definition search_call (payload : string) : ToolCall :=
  mkToolCall "function" (mkFunction "search_database" payload).

Definition other_call : ToolCall :=
  mkToolCall "function" (mkFunction "get_weather" "{}").

Definition completion_with (content : option string)
    (tool_calls : option (list ToolCall)) : ChatCompletion :=
  mkChatCompletion [mkChoice (mkMessage content tool_calls)].

End Sample.

(* ===================================================================== *)
(** ** query_rewriter.py: the declared tool *)
(* ===================================================================== *)

(** A dict literal; the keys of every literal below are distinct. *)
Definition dict_of (items : list (string * pyval)) : gmap string pyval :=
  list_to_map items.

Definition build_search_function : list pyval :=
  [PDict (dict_of
    [("type", PStr "function");
     ("function", PDict (dict_of
       [("name", PStr "search_database");
        ("description",
         PStr ("Search PostgreSQL database for relevant products "
               ++ "based on the user query"));
        ("parameters", PDict (dict_of
          [("type", PStr "object");
           ("properties", PDict (dict_of
             [("search_query", PDict (dict_of
                [("type", PStr "string");
                 ("description",
                  PStr ("Query string to use for full text search, "
                        ++ "e.g. 'red shoes'"))]));
              ("price_filter", PDict (dict_of
                [("type", PStr "object");
                 ("description",
                  PStr ("Filter search results based on price "
                        ++ "of the product"));
                 ("properties", PDict (dict_of
                   [("comparison_operator", PDict (dict_of
                      [("type", PStr "string");
                       ("description",
                        PStr ("Operator to compare the column value, "
                              ++ "either '>', '<', '>=', '<=', '=='"))]));
                    ("value", PDict (dict_of
                      [("type", PStr "number");
                       ("description",
                        PStr "Value to compare against, e.g. 30")]))]))]));
              ("brand_filter", PDict (dict_of
                [("type", PStr "object");
                 ("description",
                  PStr ("Filter search results based on brand "
                        ++ "of the product"));
                 ("properties", PDict (dict_of
                   [("comparison_operator", PDict (dict_of
                      [("type", PStr "string");
                       ("description",
                        PStr ("Operator to compare the column value, "
                              ++ "either '==' or '!='"))]));
                    ("value", PDict (dict_of
                      [("type", PStr "string");
                       ("description",
                        PStr ("Value to compare against, "
                              ++ "e.g. AirStrider"))]))]))]))]));
           ("required", PList [PStr "search_query"])]))]))])].

(** The names of the parameters a declared tool lists under
    [function.parameters.properties], and of the fields a parameter of type
    object lists under its own [properties]. *)
Definition declared_keys (v : pyval) : result (gset string) :=
  properties ← py_getitem v "properties";
  match properties with
  | PDict d => Ok (dom d)
  | _ => Raise TypeError
  end.

(** The number of invocations in [tools] that the loop reads. *)
Definition invocations_read (tools : list ToolCall) : nat :=
  length (List.filter is_search_database tools).

(* ===================================================================== *)
(** ** __init__.py: what [lifespan] derives from the environment *)
(* ===================================================================== *)

(** [os.environ[key]]; [os.getenv(key)] and [os.environ.get(key)] are the
    lookup [environ !! key]. *)
Definition environ_getitem (environ : gmap string string) (key : string)
  : result string :=
  match environ !! key with
  | Some v => Ok v
  | None => Raise (KeyError key)
  end.

(** [s.endswith(suffix)]. *)
Fixpoint endswith (s suffix : string) : bool :=
  String.eqb s suffix
  || match s with
     | EmptyString => false
     | String _ s' => endswith s' suffix
     end.

(** Lines 27-42 of [lifespan]: the URI handed to [create_async_engine],
    from the environment left by [load_dotenv]. [get_token] is
    [DefaultAzureCredential().get_token(...).token], which may raise; the
    line printed for an Azure host is left out. *)
Definition database_uri (get_token : result string)
    (environ : gmap string string) : result string :=
  POSTGRES_HOST ← environ_getitem environ "POSTGRES_HOST";
  POSTGRES_USERNAME ← environ_getitem environ "POSTGRES_USERNAME";
  POSTGRES_DATABASE ← environ_getitem environ "POSTGRES_DATABASE";
  POSTGRES_PASSWORD ←
    (if endswith POSTGRES_HOST ".database.azure.com"
     then get_token
     else environ_getitem environ "POSTGRES_PASSWORD");
  let DATABASE_URI :=
    "postgresql+asyncpg://" ++ POSTGRES_USERNAME ++ ":" ++ POSTGRES_PASSWORD
    ++ "@" ++ POSTGRES_HOST ++ "/" ++ POSTGRES_DATABASE in
  mret (match environ !! "POSTGRES_SSL" with
        | Some POSTGRES_SSL =>
            if negb (String.eqb POSTGRES_SSL "")
            then DATABASE_URI ++ "?ssl=" ++ POSTGRES_SSL
            else DATABASE_URI
        | None => DATABASE_URI
        end).

(* ===================================================================== *)
(** ** The order of the calls of a run *)
(* ===================================================================== *)

Definition is_create {P : Type} (c : Call P) : bool :=
  match c with Create _ => true | _ => false end.

(** Embedding before retrieval before completion. *)
Definition call_rank {P : Type} (c : Call P) : nat :=
  match c with
  | Embed _ _ _ _ => 0
  | Search _ _ _ => 1
  | Create _ => 2
  end.

(** The stage of a run that comes before the retrieval: the embedding has
    returned [vector] and left the world [w1], or was not asked for. *)
Definition embedded {W Item P : Type} `{!Services W Item P}
    (self : SimpleRAGChat) (overrides : gmap string pyval) (q : pyval)
    (w : W) (vector : list Q) (w1 : W) : Prop :=
  if vector_search_of overrides
  then compute_text_embedding q (embed_model self) (embed_deployment self)
         (embed_dimensions self) w = (Ok vector, w1)
  else vector = [] ∧ w1 = w.

(** The calls made up to and including the retrieval. *)
Definition calls_to_retrieval {P : Type} (self : SimpleRAGChat)
    (overrides : gmap string pyval) (q : pyval) (vector : list Q)
  : list (Call P) :=
  (if vector_search_of overrides
   then [Embed q (embed_model self) (embed_deployment self)
           (embed_dimensions self)]
   else [])
  ++ [Search (if text_search_of overrides then q else PNone) vector
        (top_of overrides)].

Module SampleMore.

Import Sample.

(** A local database and an Azure one. *)
Definition local_environ : gmap string string :=
  <["POSTGRES_HOST" := "localhost"]>
  (<["POSTGRES_USERNAME" := "admin"]>
  (<["POSTGRES_DATABASE" := "catalog"]>
  (<["POSTGRES_PASSWORD" := "secret"]> ∅))).

Definition azure_environ : gmap string string :=
  <["POSTGRES_HOST" := "shop.postgres.database.azure.com"]>
  (<["POSTGRES_USERNAME" := "admin"]>
  (<["POSTGRES_DATABASE" := "catalog"]>
  (<["POSTGRES_SSL" := "require"]> ∅))).

(** Services that differ from [Sample.services] in one call each. *)
Definition failing_search : Services nat Product (string * pyval) := {|
  compute_text_embedding _ _ _ _ w := (Ok [1 # 2; 1 # 4], S w);
  searcher_search _ _ _ w := (Raise (ServiceError "connection refused"), S w);
  chat_completions_create _ w :=
    (Ok (mkChatCompletion [mkChoice (mkMessage (Some "Try [7].") None)]),
     S w)
|}.

Definition failing_chat : Services nat Product (string * pyval) := {|
  compute_text_embedding _ _ _ _ w := (Ok [1 # 2; 1 # 4], S w);
  searcher_search _ _ _ w := (Ok [runner; boot], S w);
  chat_completions_create _ w := (Raise (ServiceError "rate limited"), S w)
|}.

Definition no_choice_chat : Services nat Product (string * pyval) := {|
  compute_text_embedding _ _ _ _ w := (Ok [1 # 2; 1 # 4], S w);
  searcher_search _ _ _ w := (Ok [runner; boot], S w);
  chat_completions_create _ w := (Ok (mkChatCompletion []), S w)
|}.

Definition two_choice_chat : Services nat Product (string * pyval) := {|
  compute_text_embedding _ _ _ _ w := (Ok [1 # 2; 1 # 4], S w);
  searcher_search _ _ _ w := (Ok [runner; boot], S w);
  chat_completions_create _ w :=
    (Ok (mkChatCompletion
           [mkChoice (mkMessage (Some "Try [7].") None);
            mkChoice (mkMessage (Some "Try [12].") None)]),
     S w)
|}.

(** Messages without a content, with a number as content, and of the
    assistant. *)
Definition no_content : gmap string pyval := <["role" := PStr "user"]> ∅.

Definition content_five : gmap string pyval := <["content" := PInt 5]> ∅.

Definition assistant_says (s : string) : gmap string pyval :=
  <["role" := PStr "assistant"]> (<["content" := PStr s]> ∅).

Definition text_mode : gmap string pyval :=
  <["retrieval_mode" := PStr "text"]> ∅.

Definition payload_null : string := "null".

Definition payload_null_price : string :=
  "{" ++ quoted "price_filter" ++ ": null}".

Definition payload_price_only : string :=
  "{" ++ quoted "price_filter" ++ ": {" ++ quoted "comparison_operator"
  ++ ": " ++ quoted "<" ++ ", " ++ quoted "value" ++ ": 50}}".

Definition price_under_50 : gmap string pyval :=
  <["comparison_operator" := PStr "<"]> (<["value" := PInt 50]> ∅).

(** [json.loads] on the payloads of both sample modules. *)
Definition json_loads (s : string) : result pyval :=
  if String.eqb s payload_null then Ok PNone
  else if String.eqb s payload_null_price then
    Ok (PDict (<["price_filter" := PNone]> ∅))
  else if String.eqb s payload_price_only then
    Ok (PDict (<["price_filter" := PDict price_under_50]> ∅))
  else Sample.json_loads s.

End SampleMore.

(* ===================================================================== *)
(** * Properties of [extract_search_arguments] *)
(* ===================================================================== *)

Section QueryRewriterFacts.

Variable json_loads : string → result pyval.


Lemma is_search_database_spec (tool : ToolCall) :
  is_search_database tool = true ↔
  type tool = "function" ∧ name (function tool) = "search_database".
Proof.
  unfold is_search_database.
  rewrite andb_true_iff, !String.eqb_eq. tauto.
Qed.

(** One step of the loop on an invocation that is read. *)
Lemma scan_read (tool : ToolCall) (tools : list ToolCall)
    (search_query : pyval) (filters : list Filter) :
  is_search_database tool = true →
  scan_tool_calls json_loads (tool :: tools) search_query filters =
  search_database_call json_loads (function tool) filters
    ≫= (λ '(q, fs), scan_tool_calls json_loads tools q fs).
Proof.
  intros [Ht Hn]%andb_true_iff. simpl. rewrite Ht, Hn. reflexivity.
Qed.

(** One step of the loop on an invocation that is passed over. *)
Lemma scan_pass (tool : ToolCall) (tools : list ToolCall)
    (search_query : pyval) (filters : list Filter) :
  is_search_database tool = false →
  scan_tool_calls json_loads (tool :: tools) search_query filters
  = scan_tool_calls json_loads tools search_query filters.
Proof.
  unfold is_search_database. intros H. simpl.
  destruct (String.eqb (type tool) "function"); simpl in *; [| reflexivity].
  rewrite H. reflexivity.
Qed.

(** Invocations that are passed over leave both variables as they are. *)
Lemma scan_passed_prefix (pre tools : list ToolCall)
    (search_query : pyval) (filters : list Filter) :
  Forall (λ t, is_search_database t = false) pre →
  scan_tool_calls json_loads (pre ++ tools) search_query filters
  = scan_tool_calls json_loads tools search_query filters.
Proof.
  induction 1 as [| t pre Ht _ IH]; [reflexivity |].
  rewrite <- app_comm_cons, scan_pass by exact Ht. exact IH.
Qed.

Lemma scan_passed (tools : list ToolCall)
    (search_query : pyval) (filters : list Filter) :
  Forall (λ t, is_search_database t = false) tools →
  scan_tool_calls json_loads tools search_query filters
  = Ok (search_query, filters).
Proof.
  intros H. rewrite <- (app_nil_r tools).
  rewrite scan_passed_prefix by exact H. reflexivity.
Qed.

(** An invocation that raises makes the loop raise, wherever it stands. *)
Lemma scan_raises (pre post : list ToolCall) (tool : ToolCall) :
  is_search_database tool = true →
  (∀ filters,
     raises (search_database_call json_loads (function tool) filters)) →
  ∀ search_query filters,
    raises (scan_tool_calls json_loads (pre ++ tool :: post)
              search_query filters).
Proof.
  intros Htool Hbad.
  induction pre as [| t pre IH]; intros search_query filters.
  - simpl app. rewrite scan_read by exact Htool.
    destruct (Hbad filters) as [e ->]. exists e. reflexivity.
  - rewrite <- app_comm_cons.
    destruct (is_search_database t) eqn:Ht.
    + rewrite scan_read by exact Ht.
      destruct (search_database_call json_loads (function t) filters)
        as [[q fs] | e]; simpl.
      * apply IH.
      * exists e. reflexivity.
    + rewrite scan_pass by exact Ht. apply IH.
Qed.

(** With a non-empty [tool_calls] the result is that of the loop. *)
Lemma extract_tool_calls (chat_completion : ChatCompletion)
    (choice0 : Choice) (rest : list Choice) (tools : list ToolCall) :
  choices chat_completion = choice0 :: rest →
  tool_calls (message choice0) = Some tools →
  tools ≠ [] →
  extract_search_arguments json_loads chat_completion
  = scan_tool_calls json_loads tools PNone [].
Proof.
  intros Hc Ht Hne. unfold extract_search_arguments. rewrite Hc, Ht.
  destruct tools; [contradiction | reflexivity].
Qed.

Lemma py_contains_dict (key : string) (d : gmap string pyval) :
  py_contains key (PDict d) =
  Ok (match d !! key with Some _ => true | None => false end).
Proof.
  unfold py_contains. f_equal. destruct (d !! key) eqn:H.
  - apply bool_decide_eq_true_2. eexists. reflexivity.
  - apply bool_decide_eq_false_2. intros [? ?]. discriminate.
Qed.

(** The body of one invocation on a decoded payload that is a dict. *)
Lemma search_database_call_dict (function : Function)
    (d : gmap string pyval) (filters : list Filter) :
  json_loads (arguments function) = Ok (PDict d) →
  search_database_call json_loads function filters =
  (filters ←
     (match d !! "price_filter" with
      | Some price_filter =>
          op ← py_getitem price_filter "comparison_operator";
          v ← py_getitem price_filter "value";
          mret (filters ++ [mkFilter "price" op v])%list
      | None => mret filters
      end);
   filters ←
     (match d !! "brand_filter" with
      | Some brand_filter =>
          op ← py_getitem brand_filter "comparison_operator";
          v ← py_getitem brand_filter "value";
          mret (filters ++ [mkFilter "brand" op v])%list
      | None => mret filters
      end);
   mret (dict_get d "search_query" PNone, filters)).
Proof.
  intros Hj. unfold search_database_call. rewrite Hj.
  cbn [mbind result_bind py_get]. rewrite !py_contains_dict.
  cbn [py_getitem]. unfold dict_getitem.
  destruct (d !! "price_filter") as [pf |];
    cbn [mbind result_bind mret result_ret].
  - destruct (py_getitem pf "comparison_operator"); [| reflexivity].
    destruct (py_getitem pf "value"); [| reflexivity].
    destruct (d !! "brand_filter"); reflexivity.
  - destruct (d !! "brand_filter"); reflexivity.
Qed.

End QueryRewriterFacts.

(* ===================================================================== *)
(** ** [str.strip] *)
(* ===================================================================== *)

Lemma append_cons (c : ascii) (a b : string) :
  String c a ++ b = String c (a ++ b).
Proof. reflexivity. Qed.

Lemma lstrip_split (s : string) :
  ∃ l, s = l ++ lstrip s ∧ all_space l = true.
Proof.
  induction s as [| c s [l [IH Hl]]].
  - exists "". split; reflexivity.
  - simpl. destruct (is_space c) eqn:Hc.
    + exists (String c l). simpl. rewrite append_cons, Hc, Hl, <- IH.
      split; reflexivity.
    + exists "". split; reflexivity.
Qed.

Lemma lstrip_first (s : string) (c : ascii) :
  first_char (lstrip s) = Some c → is_space c = false.
Proof.
  induction s as [| a s IH]; simpl; [discriminate |].
  destruct (is_space a) eqn:Ha; [exact IH |].
  simpl. intros [= <-]. exact Ha.
Qed.

Lemma rstrip_split (s : string) :
  ∃ r, s = rstrip s ++ r ∧ all_space r = true.
Proof.
  induction s as [| c s [r [IH Hr]]].
  - exists "". split; reflexivity.
  - simpl. destruct (rstrip s) as [| a t] eqn:Hs.
    + change ("" ++ r) with r in IH. subst r. destruct (is_space c) eqn:Hc.
      * exists (String c s). simpl. rewrite Hc, Hr. split; reflexivity.
      * exists s. split; [reflexivity | exact Hr].
    + exists r. rewrite append_cons, <- IH. split; [reflexivity | exact Hr].
Qed.

Lemma rstrip_last (s : string) (c : ascii) :
  last_char (rstrip s) = Some c → is_space c = false.
Proof.
  induction s as [| a s IH]; simpl; [discriminate |].
  destruct (rstrip s) as [| b t] eqn:Hs.
  - destruct (is_space a) eqn:Ha; simpl; [discriminate |].
    intros [= <-]. exact Ha.
  - intros H. apply IH. exact H.
Qed.

Lemma rstrip_first (s : string) (c : ascii) :
  first_char (rstrip s) = Some c → first_char s = Some c.
Proof.
  destruct s as [| a s]; simpl; [discriminate |].
  destruct (rstrip s); [destruct (is_space a) |]; simpl; congruence.
Qed.

(** [strip] removes a run of spaces at each end, and what it leaves
    neither starts nor ends with a space. *)
Lemma strip_spec (s : string) :
  ∃ l r, s = l ++ strip s ++ r
         ∧ all_space l = true ∧ all_space r = true ∧ trimmed (strip s).
Proof.
  destruct (lstrip_split s) as [l [Hl Hls]].
  destruct (rstrip_split (lstrip s)) as [r [Hr Hrs]].
  exists l, r. unfold strip.
  split; [| split; [exact Hls | split; [exact Hrs |]]].
  - rewrite <- Hr. exact Hl.
  - split; intros c Hc.
    + apply (lstrip_first s). apply rstrip_first. exact Hc.
    + apply (rstrip_last (lstrip s)). exact Hc.
Qed.

(** The characters [is_space] accepts, by code point. *)
Lemma is_space_codes (c : ascii) :
  is_space c = true ↔
  In (nat_of_ascii c) [9; 10; 11; 12; 13; 28; 29; 30; 31; 32; 133; 160]%nat.
Proof.
  unfold is_space. cbv zeta. generalize (nat_of_ascii c). intros n.
  rewrite !orb_true_iff, !andb_true_iff, !Nat.leb_le, !Nat.eqb_eq.
  simpl. lia.
Qed.

Lemma all_space_codes (s : string) :
  all_space s = true →
  Forall (λ c, In (nat_of_ascii c)
                 [9; 10; 11; 12; 13; 28; 29; 30; 31; 32; 133; 160]%nat)
         (list_ascii_of_string s).
Proof.
  induction s as [| c s IH]; simpl; [constructor |].
  intros [Hc Hs]%andb_true_iff. constructor.
  - apply is_space_codes. exact Hc.
  - apply IH. exact Hs.
Qed.

(* ===================================================================== *)
(** ** What [extract_search_arguments] returns *)
(* ===================================================================== *)

Section QueryRewriterClaims.

Open Scope list_scope.

Variable json_loads : string → result pyval.


Lemma malformed_call_raises (function : Function) (filters : list Filter) :
  malformed json_loads (arguments function) →
  raises (search_database_call json_loads function filters).
Proof.
  intros [[e He] | [d [Hd Hbad]]].
  - exists e. unfold search_database_call. rewrite He. reflexivity.
  - rewrite (search_database_call_dict _ _ d) by exact Hd.
    destruct Hbad as [[pf [Hp [f [-> Hf]]]] | [bf [Hb [f [-> Hf]]]]].
    + rewrite Hp. cbn [py_getitem]. unfold dict_getitem.
      destruct Hf as [-> | Hv].
      * eexists. reflexivity.
      * destruct (f !! "comparison_operator"); rewrite ?Hv;
          eexists; reflexivity.
    + rewrite Hb. cbn [py_getitem]. unfold dict_getitem.
      match goal with
      | |- raises (mbind _ ?m) => destruct m as [fs | e]
      end; [| eexists; reflexivity].
      cbn [mbind result_bind].
      destruct Hf as [-> | Hv].
      * eexists. reflexivity.
      * destruct (f !! "comparison_operator"); rewrite ?Hv;
          eexists; reflexivity.
Qed.

(** C5 (as amended). A response whose [search_database] invocation (of
    kind "function") carries a payload that sets only [search_query], and
    in which it is the only such invocation (every other invocation being
    of another kind or another function name), yields exactly that string
    as the search query and an empty filter list. *)
Theorem extract_query_only (chat_completion : ChatCompletion)
    (choice0 : Choice) (rest : list Choice)
    (pre post : list ToolCall) (tool : ToolCall) (s : string) :
  choices chat_completion = choice0 :: rest →
  tool_calls (message choice0) = Some (pre ++ tool :: post) →
  Forall (λ t, is_search_database t = false) (pre ++ post) →
  type tool = "function" →
  name (function tool) = "search_database" →
  json_loads (arguments (function tool))
    = Ok (PDict (<["search_query" := PStr s]> ∅)) →
  extract_search_arguments json_loads chat_completion = Ok (PStr s, []).
Proof.
  intros Hc Ht [Hpre Hpost]%Forall_app Hty Hn Hj.
  assert (Htool : is_search_database tool = true)
    by (apply is_search_database_spec; split; assumption).
  rewrite (extract_tool_calls _ _ _ _ _ Hc Ht)
    by (destruct pre; discriminate).
  rewrite scan_passed_prefix by exact Hpre.
  rewrite scan_read by exact Htool.
  rewrite (search_database_call_dict _ _ _ _ Hj).
  cbn. apply scan_passed. exact Hpost.
Qed.

(** C6 (as amended). A response whose [search_database] invocation
    carries both a [price_filter] and a [brand_filter], and in which it is
    the only such invocation (every other invocation being of another kind
    or another function name), yields exactly two filters, the one on
    column "price" before the one on column "brand", each with the
    comparison operator and the value of the payload. *)
Theorem extract_price_then_brand (chat_completion : ChatCompletion)
    (choice0 : Choice) (rest : list Choice)
    (pre post : list ToolCall) (tool : ToolCall)
    (d price_filter brand_filter : gmap string pyval)
    (price_op price_value brand_op brand_value : pyval) :
  choices chat_completion = choice0 :: rest →
  tool_calls (message choice0) = Some (pre ++ tool :: post) →
  Forall (λ t, is_search_database t = false) (pre ++ post) →
  type tool = "function" →
  name (function tool) = "search_database" →
  json_loads (arguments (function tool)) = Ok (PDict d) →
  d !! "price_filter" = Some (PDict price_filter) →
  price_filter !! "comparison_operator" = Some price_op →
  price_filter !! "value" = Some price_value →
  d !! "brand_filter" = Some (PDict brand_filter) →
  brand_filter !! "comparison_operator" = Some brand_op →
  brand_filter !! "value" = Some brand_value →
  extract_search_arguments json_loads chat_completion =
  Ok (dict_get d "search_query" PNone,
      [mkFilter "price" price_op price_value;
       mkFilter "brand" brand_op brand_value]).
Proof.
  intros Hc Ht [Hpre Hpost]%Forall_app Hty Hn Hj Hp Hpo Hpv Hb Hbo Hbv.
  assert (Htool : is_search_database tool = true)
    by (apply is_search_database_spec; split; assumption).
  rewrite (extract_tool_calls _ _ _ _ _ Hc Ht)
    by (destruct pre; discriminate).
  rewrite scan_passed_prefix by exact Hpre.
  rewrite scan_read by exact Htool.
  rewrite (search_database_call_dict _ _ _ _ Hj), Hp, Hb.
  cbn [py_getitem]. unfold dict_getitem. rewrite Hpo, Hpv, Hbo, Hbv.
  cbn. apply scan_passed. exact Hpost.
Qed.

(** C7. A response with no tool invocation ([tool_calls] absent or
    empty) yields an empty filter list and, as the search query, the
    content stripped of leading and trailing whitespace when the content
    is a non-empty text, and null when there is no content. Stripped means:
    the content is the query between two runs of whitespace characters
    (TAB, LF, VT, FF, CR, FS, GS, RS, US, space, NEL, no-break space), and
    the query neither starts nor ends with one of them. *)
Theorem extract_without_tool_calls (chat_completion : ChatCompletion)
    (choice0 : Choice) (rest : list Choice) :
  let whitespace := [9; 10; 11; 12; 13; 28; 29; 30; 31; 32; 133; 160]%nat in
  choices chat_completion = choice0 :: rest →
  tool_calls (message choice0) = None
  ∨ tool_calls (message choice0) = Some [] →
  (∀ s, content (message choice0) = Some s → s ≠ "" →
        extract_search_arguments json_loads chat_completion
        = Ok (PStr (strip s), [])
        ∧ ∃ l r,
            s = (l ++ strip s ++ r)%string
            ∧ Forall (λ c, In (nat_of_ascii c) whitespace)
                     (list_ascii_of_string l)
            ∧ Forall (λ c, In (nat_of_ascii c) whitespace)
                     (list_ascii_of_string r)
            ∧ (∀ c, first_char (strip s) = Some c →
                    ¬ In (nat_of_ascii c) whitespace)
            ∧ (∀ c, last_char (strip s) = Some c →
                    ¬ In (nat_of_ascii c) whitespace))
  ∧ (content (message choice0) = None
     ∨ content (message choice0) = Some "" →
     extract_search_arguments json_loads chat_completion = Ok (PNone, [])).
Proof.
  intros whitespace Hc Ht. unfold extract_search_arguments. rewrite Hc.
  destruct (message choice0) as [text tools]. simpl in *. split.
  - intros s -> Hs. split.
    + apply String.eqb_neq in Hs. rewrite Hs.
      destruct Ht as [-> | ->]; reflexivity.
    + destruct (strip_spec s) as (l & r & Hsplit & Hl & Hr & Hfirst & Hlast).
      exists l, r. split; [exact Hsplit |].
      split; [apply all_space_codes; exact Hl |].
      split; [apply all_space_codes; exact Hr |].
      split; intros c Hchar Hin; apply is_space_codes in Hin;
        [rewrite (Hfirst c Hchar) in Hin | rewrite (Hlast c Hchar) in Hin];
        discriminate Hin.
  - intros [-> | ->]; destruct Ht as [-> | ->]; reflexivity.
Qed.

(** C9. A response that contains a [search_database] invocation with a
    malformed payload (text that is not JSON, or a [price_filter] or
    [brand_filter] object without its [comparison_operator] or [value])
    makes the extractor raise: no query and no filter list is returned. *)
Theorem extract_malformed_raises (chat_completion : ChatCompletion)
    (choice0 : Choice) (rest : list Choice)
    (pre post : list ToolCall) (tool : ToolCall) :
  choices chat_completion = choice0 :: rest →
  tool_calls (message choice0) = Some (pre ++ tool :: post) →
  type tool = "function" →
  name (function tool) = "search_database" →
  malformed json_loads (arguments (function tool)) →
  raises (extract_search_arguments json_loads chat_completion).
Proof.
  intros Hc Ht Hty Hn Hbad.
  rewrite (extract_tool_calls _ _ _ _ _ Hc Ht)
    by (destruct pre; discriminate).
  apply scan_raises.
  - apply is_search_database_spec. split; assumption.
  - intros filters. apply malformed_call_raises. exact Hbad.
Qed.

(** C10. A response whose [tool_calls] is non-empty and holds no
    "function" invocation named [search_database] yields a null search
    query and an empty filter list, whatever its text content: the content
    is only read when [tool_calls] is empty or absent. *)
Theorem extract_unread_tool_calls (chat_completion : ChatCompletion)
    (choice0 : Choice) (rest : list Choice) (tools : list ToolCall) :
  choices chat_completion = choice0 :: rest →
  tool_calls (message choice0) = Some tools →
  tools ≠ [] →
  Forall (λ t, is_search_database t = false) tools →
  extract_search_arguments json_loads chat_completion = Ok (PNone, []).
Proof.
  intros Hc Ht Hne Hall.
  rewrite (extract_tool_calls _ _ _ _ _ Hc Ht Hne).
  apply scan_passed. exact Hall.
Qed.

End QueryRewriterClaims.

(* ===================================================================== *)
(** * Properties of [SimpleRAGChat.run] *)
(* ===================================================================== *)

(** ** The monad, one step at a time *)

Section MonadFacts.

Context {W P : Type}.

Lemma outcome_eta {A} (o : Outcome W P A) :
  mkOutcome (returned o) (world o) (calls o) = o.
Proof. destruct o. reflexivity. Qed.

Lemma bind_pure_ok {A B} (x : A) (f : A → M W P B) (w : W) :
  (pure_step (Ok x) ≫= f) w = f x w.
Proof. unfold mbind, M_bind, pure_step. simpl. apply outcome_eta. Qed.

Lemma bind_pure_raise {A B} (e : exn) (f : A → M W P B) (w : W) :
  (pure_step (Raise e) ≫= f) w = mkOutcome (Raise e) w [].
Proof. reflexivity. Qed.

Lemma bind_ret {A B} (x : A) (f : A → M W P B) (w : W) :
  (mret x ≫= f) w = f x w.
Proof. unfold mbind, M_bind, mret, M_ret. simpl. apply outcome_eta. Qed.

Lemma bind_call_ok {A B} (c : Call P) (service : W → result A * W)
    (f : A → M W P B) (w w1 : W) (x : A) :
  service w = (Ok x, w1) →
  (service_call c service ≫= f) w =
  mkOutcome (returned (f x w1)) (world (f x w1)) (c :: calls (f x w1)).
Proof.
  intros H. unfold mbind, M_bind, service_call. rewrite H. reflexivity.
Qed.

Lemma bind_call_raise {A B} (c : Call P) (service : W → result A * W)
    (f : A → M W P B) (w w1 : W) (e : exn) :
  service w = (Raise e, w1) →
  (service_call c service ≫= f) w = mkOutcome (Raise e) w1 [c].
Proof.
  intros H. unfold mbind, M_bind, service_call. rewrite H. reflexivity.
Qed.

End MonadFacts.

(** Runs the next statement of a body written in [M], splitting on whether
    it returns or raises. *)
Ltac step_run :=
  first
    [ rewrite bind_pure_ok
    | rewrite bind_ret
    | rewrite bind_pure_raise
    | match goal with
      | |- context [(pure_step ?r ≫= _) _] => destruct r eqn:?
      end
    | match goal with
      | |- context [(service_call ?c ?svc ≫= _) ?w] =>
          let H := fresh "Hcall" in
          destruct (svc w) as [[? | ?] ?] eqn:H;
          [ rewrite (bind_call_ok _ _ _ _ _ _ H)
          | rewrite (bind_call_raise _ _ _ _ _ _ H) ]
      end ];
  cbn [calls returned world].

Ltac no_retrieval := unfold no_retrieval_calls; repeat constructor.

(** ** The options read from [overrides] *)

Lemma flags_text (overrides : gmap string pyval) :
  overrides !! "retrieval_mode" = Some (PStr "text") →
  text_search_of overrides = true ∧ vector_search_of overrides = false.
Proof.
  intros H. unfold text_search_of, vector_search_of, dict_get. rewrite H.
  split; reflexivity.
Qed.

Lemma flags_vectors (overrides : gmap string pyval) :
  overrides !! "retrieval_mode" = Some (PStr "vectors") →
  text_search_of overrides = false ∧ vector_search_of overrides = true.
Proof.
  intros H. unfold text_search_of, vector_search_of, dict_get. rewrite H.
  split; reflexivity.
Qed.

Lemma flags_hybrid (overrides : gmap string pyval) :
  overrides !! "retrieval_mode" = Some (PStr "hybrid")
  ∨ overrides !! "retrieval_mode" = Some PNone
  ∨ overrides !! "retrieval_mode" = None →
  text_search_of overrides = true ∧ vector_search_of overrides = true.
Proof.
  intros H. unfold text_search_of, vector_search_of, dict_get.
  destruct H as [-> | [-> | ->]]; split; reflexivity.
Qed.

(** ** The log of a run *)

Section RagSimpleFacts.

Open Scope list_scope.

Context {W Item PromptMessage : Type}.
Context `{!ItemModel Item} `{!TokenHelper PromptMessage}
        `{!Services W Item PromptMessage}.

Lemma run_without_message (self : SimpleRAGChat)
    (messages : list (gmap string pyval)) (overrides : gmap string pyval)
    (w : W) :
  last messages = None →
  run self messages overrides w = mkOutcome (Raise IndexError) w [].
Proof.
  intros Hl. unfold run, last_message. rewrite Hl. reflexivity.
Qed.

Lemma run_without_content (self : SimpleRAGChat)
    (messages : list (gmap string pyval)) (overrides : gmap string pyval)
    (w : W) (m : gmap string pyval) :
  last messages = Some m → m !! "content" = None →
  run self messages overrides w =
  mkOutcome (Raise (KeyError "content")) w [].
Proof.
  intros Hl Hm. unfold run, last_message, dict_getitem.
  rewrite Hl, bind_pure_ok, Hm. reflexivity.
Qed.

(** The calls of a run that has a last message with a content [q]: the
    embedding call when [vector_search] holds, then, unless the embedding
    raised, one retrieval call, then no further embedding or retrieval. A
    retrieval that raises ends the run. *)
Lemma run_log (self : SimpleRAGChat) (messages : list (gmap string pyval))
    (overrides : gmap string pyval) (w : W)
    (m : gmap string pyval) (q : pyval) :
  last messages = Some m → m !! "content" = Some q →
  let o := run self messages overrides w in
  let top := top_of overrides in
  let query_text := if text_search_of overrides then q else PNone in
  let embed :=
    Embed q (embed_model self) (embed_deployment self)
          (embed_dimensions self) in
  let retrieval (before : list (Call PromptMessage)) (vector : list Q)
        (w1 : W) :=
    ∃ rest, calls o = before ++ Search query_text vector top :: rest
            ∧ no_retrieval_calls rest
            ∧ ∀ e w2,
                searcher_search query_text vector top w1 = (Raise e, w2) →
                      returned o = Raise e ∧ rest = [] in
  if vector_search_of overrides then
    match compute_text_embedding q (embed_model self)
            (embed_deployment self) (embed_dimensions self) w with
    | (Ok vector, w1) => retrieval [embed] vector w1
    | (Raise e, _) => calls o = [embed] ∧ returned o = Raise e
    end
  else retrieval [] [] w.
Proof.
  intros Hl Hm. unfold run, last_message, dict_getitem. rewrite Hl.
  rewrite bind_pure_ok, Hm, bind_pure_ok.
  destruct (vector_search_of overrides).
  - step_run; [| split; reflexivity].
    repeat step_run; eexists; (split; [reflexivity |]);
      (split; [no_retrieval | intros ? ? [=]; subst; auto]).
  - repeat step_run; eexists; (split; [reflexivity |]);
      (split; [no_retrieval | intros ? ? [=]; subst; auto]).
Qed.

(** Every retrieval call of a run carries the [top] read from
    [overrides]. *)
Lemma run_search_top (self : SimpleRAGChat)
    (messages : list (gmap string pyval)) (overrides : gmap string pyval)
    (w : W) (query_text : pyval) (vector : list Q) (top : pyval) :
  Search query_text vector top ∈ calls (run self messages overrides w) →
  top = top_of overrides.
Proof.
  destruct (last messages) as [m |] eqn:Hl;
    [| rewrite run_without_message by exact Hl; intros []%elem_of_nil].
  destruct (m !! "content") as [q |] eqn:Hm;
    [| rewrite (run_without_content _ _ _ _ m) by assumption;
       intros []%elem_of_nil].
  pose proof (run_log self messages overrides w m q Hl Hm) as Hlog.
  cbv zeta in Hlog.
  assert (Hrest : ∀ rest : list (Call PromptMessage),
             no_retrieval_calls rest →
             Search query_text vector top ∈ rest → False).
  { intros rest Hnr Hin.
    apply (proj1 (Forall_forall _ _) Hnr) in Hin. destruct Hin. discriminate. }
  destruct (vector_search_of overrides).
  - destruct (compute_text_embedding _ _ _ _ w) as [[v | e] w1].
    + destruct Hlog as [rest [-> [Hnr _]]]. simpl.
      rewrite !elem_of_cons. intros [[=] | [[=] | Hin]]; [auto |].
      destruct (Hrest rest Hnr Hin).
    + destruct Hlog as [-> _]. rewrite elem_of_cons.
      intros [[=] | []%elem_of_nil].
  - destruct Hlog as [rest [-> [Hnr _]]]. simpl.
    rewrite elem_of_cons. intros [[=] | Hin]; [auto |].
    destruct (Hrest rest Hnr Hin).
Qed.

(** A run that returns went through every step: it had a last message
    with a content, the embedding (when asked for), the retrieval, the
    prompt assembly and the completion all returned, and the completion
    had a first choice, which received the context. *)
Lemma run_returns (self : SimpleRAGChat)
    (messages : list (gmap string pyval)) (overrides : gmap string pyval)
    (w : W) (resp : ChatResp) :
  let o := run self messages overrides w in
  let top := top_of overrides in
  returned o = Ok resp →
  ∃ m q vector w1 results w2 question prompt completion w3 ch others,
    let query_text := if text_search_of overrides then q else PNone in
    let embed :=
      Embed q (embed_model self) (embed_deployment self)
            (embed_dimensions self) in
    let request := create_request self overrides prompt in
    last messages = Some m ∧ m !! "content" = Some q
    ∧ (if vector_search_of overrides
       then compute_text_embedding q (embed_model self)
              (embed_deployment self) (embed_dimensions self) w
            = (Ok vector, w1)
       else vector = [] ∧ w1 = w)
    ∧ searcher_search query_text vector top w1 = (Ok results, w2)
    ∧ py_add_str q SOURCES_HEADER = Ok question
    ∧ build_messages (chat_model self)
        (py_or (dict_get overrides "prompt_template" PNone)
               (PStr (answer_prompt_template self)))
        (question ++ sources_block results)%string (removelast messages)
        (chat_token_limit self - 1024)%Z true = Ok prompt
    ∧ chat_completions_create request w2 = (Ok completion, w3)
    ∧ choices completion = ch :: others
    ∧ calls o = (if vector_search_of overrides then [embed] else [])
                ++ [Search query_text vector top; Create request]
    ∧ resp = mkChatResp
               (mkChoiceDict ch
                  (Some (mkResponseContext
                           (mkDataPoints (sources_content results))
                           [thought_search_query query_text top
                              (vector_search_of overrides)
                              (text_search_of overrides);
                            thought_search_results results;
                            thought_prompt self prompt]))
                :: map (λ c, mkChoiceDict c None) others).
Proof.
  intros o top. subst o top.
  destruct (last messages) as [m |] eqn:Hl;
    [| rewrite run_without_message by exact Hl; discriminate].
  destruct (m !! "content") as [q |] eqn:Hm;
    [| rewrite (run_without_content _ _ _ _ m) by assumption; discriminate].
  unfold run, last_message, dict_getitem. rewrite Hl.
  rewrite bind_pure_ok, Hm, bind_pure_ok.
  destruct (vector_search_of overrides) eqn:Hv;
    repeat step_run; try discriminate;
    cbn [pure_step returned calls]; unfold set_first_context, model_dump;
    cbn [resp_choices];
    match goal with
    | |- context [choices ?c] => destruct (choices c) as [| ch others] eqn:Hch
    end; try discriminate;
    cbn [map dumped]; intros [= <-];
    do 12 eexists; cbv zeta;
    repeat (split; [first [eassumption | reflexivity | split; reflexivity] |]);
    reflexivity.
Qed.

End RagSimpleFacts.

(* ===================================================================== *)
(** ** The source blocks *)
(* ===================================================================== *)

Lemma concat_cons2 (sep x y : string) (l : list string) :
  String.concat sep (x :: y :: l) = x ++ sep ++ String.concat sep (y :: l).
Proof. reflexivity. Qed.

Lemma string_append_assoc (a b c : string) : (a ++ b) ++ c = a ++ b ++ c.
Proof.
  induction a as [| x a IH]; [reflexivity |].
  rewrite !append_cons, IH. reflexivity.
Qed.

(** Joining two non-empty lists puts one separator between them. *)
Lemma concat_app (sep : string) (xs ys : list string) :
  xs ≠ [] → ys ≠ [] →
  String.concat sep (xs ++ ys)%list
  = String.concat sep xs ++ sep ++ String.concat sep ys.
Proof.
  intros Hx Hy. induction xs as [| x xs IH]; [contradiction |].
  destruct xs as [| x' xs].
  - destruct ys; [contradiction | reflexivity].
  - change ((x :: x' :: xs) ++ ys)%list with (x :: x' :: (xs ++ ys))%list.
    rewrite !concat_cons2.
    change (x' :: (xs ++ ys))%list with ((x' :: xs) ++ ys)%list.
    rewrite IH by discriminate.
    rewrite !string_append_assoc. reflexivity.
Qed.

Section RagSimpleClaims.

Open Scope list_scope.

Context {W Item PromptMessage : Type}.
Context `{!ItemModel Item} `{!TokenHelper PromptMessage}
        `{!Services W Item PromptMessage}.

(** C3 (as amended). The items are rendered one block each, in the order
    the retriever returned them: the block of an item is ["["], its id,
    ["]:"], its renderable text and two line feeds, with nothing between
    the colon and the text. The sources block is those blocks joined by
    one line feed: empty for no item, the block alone for one item, and
    for two non-empty runs of items their two sources blocks with one line
    feed in between. *)
Theorem sources_rendering (results : list Item) :
  length (sources_content results) = length results
  ∧ (∀ i item, results !! i = Some item →
       sources_content results !! i =
       Some ("[" ++ id_text item ++ "]:" ++ to_str_for_rag item
             ++ LF ++ LF)%string)
  ∧ sources_block (@nil Item) = ""
  ∧ (∀ item, sources_block [item] = source_block item)
  ∧ (∀ xs ys : list Item, xs ≠ [] → ys ≠ [] →
       sources_block (xs ++ ys)
       = (sources_block xs ++ LF ++ sources_block ys)%string).
Proof.
  unfold sources_block, sources_content.
  split; [apply length_map |].
  split; [intros i item Hi; rewrite list_lookup_fmap, Hi; reflexivity |].
  split; [reflexivity |]. split; [reflexivity |].
  intros xs ys Hx Hy. rewrite map_app. apply concat_app.
  - destruct xs; [contradiction | discriminate].
  - destruct ys; [contradiction | discriminate].
Qed.

(** C1 (as amended). A run in which neither a query text nor a query
    vector is available does not stop short of the retriever: it makes no
    embedding call and calls the retriever once, with a null query text,
    an empty vector and the [top] of the overrides. What the retriever
    returns is what the run goes on with: an error ends the run with that
    error, and a list of items is the list rendered into the response. *)
Theorem run_without_query_calls_retriever (self : SimpleRAGChat)
    (messages : list (gmap string pyval)) (overrides : gmap string pyval)
    (w : W) (m : gmap string pyval) (q : pyval) :
  last messages = Some m → m !! "content" = Some q →
  text_search_of overrides = false →
  vector_search_of overrides = false →
  let o := run self messages overrides w in
  ∃ rest,
    calls o = Search PNone [] (top_of overrides) :: rest
    ∧ no_retrieval_calls rest
    ∧ match searcher_search PNone [] (top_of overrides) w with
      | (Raise e, _) => returned o = Raise e ∧ rest = []
      | (Ok results, _) =>
          ∀ resp, returned o = Ok resp →
            ∃ ch others ctx,
              resp_choices resp = ch :: others
              ∧ context ch = Some ctx
              ∧ text (data_points ctx) = sources_content results
      end.
Proof.
  intros Hl Hm Ht Hv o.
  pose proof (run_log self messages overrides w m q Hl Hm) as Hlog.
  cbv zeta in Hlog. rewrite Ht, Hv in Hlog.
  destruct Hlog as [rest [Hcalls [Hnr Hraise]]].
  exists rest. split; [exact Hcalls |]. split; [exact Hnr |].
  destruct (searcher_search PNone [] (top_of overrides) w)
    as [[results | e] w1] eqn:Hs.
  - intros resp Hresp.
    destruct (run_returns self messages overrides w resp Hresp)
      as (m' & q' & vector & w1' & results' & w2 & question & prompt
          & completion & w3 & ch & others & _ & _ & Hvec & Hsearch & _
          & _ & _ & _ & _ & ->).
    rewrite Hv in Hvec. destruct Hvec as [-> ->].
    rewrite Ht, Hs in Hsearch. injection Hsearch as <- _.
    do 3 eexists. repeat split; reflexivity.
  - apply (Hraise e w1). reflexivity.
Qed.

(** C2 (as amended). The [top] handed to the retriever is the ["top"] of
    the overrides as supplied, and 3 when the overrides have none. It is
    a positive integer exactly when the overrides have no ["top"] or
    supply a positive integer. *)
Theorem search_top_is_override (self : SimpleRAGChat)
    (messages : list (gmap string pyval)) (overrides : gmap string pyval)
    (w : W) (query_text : pyval) (vector : list Q) (top : pyval) :
  Search query_text vector top ∈ calls (run self messages overrides w) →
  top = default (PInt 3) (overrides !! "top")
  ∧ (is_positive_int top = true ↔
     overrides !! "top" = None
     ∨ ∃ n, overrides !! "top" = Some (PInt n) ∧ (0 < n)%Z).
Proof.
  intros Hin. apply run_search_top in Hin. subst top.
  unfold top_of, dict_get. split; [reflexivity |].
  destruct (overrides !! "top") as [v |]; simpl.
  - split.
    + destruct v; simpl; try discriminate.
      intros Hz%Z.ltb_lt. right. eauto.
    + intros [[=] | [n [[= ->] Hn]]]. simpl. apply Z.ltb_lt. exact Hn.
  - split; [auto | reflexivity].
Qed.

(** C4. With [retrieval_mode] "text" the embedding capability is never
    called. For a run whose last message has a content: with "text" the
    first call is the retrieval, with that content as query text and an
    empty vector; with "vectors" the first call is the one embedding call,
    on that content, followed (when it returns) by the retrieval with the
    vector it returned and no query text; with "hybrid", null or no
    [retrieval_mode] the same embedding call is followed by the retrieval
    with both the vector and the content as query text. No other embedding
    or retrieval call is made. *)
Theorem embedding_follows_retrieval_mode (self : SimpleRAGChat)
    (messages : list (gmap string pyval)) (overrides : gmap string pyval)
    (w : W) :
  let o := run self messages overrides w in
  let top := top_of overrides in
  (overrides !! "retrieval_mode" = Some (PStr "text") →
   Forall (λ c, is_embed c = false) (calls o))
  ∧ ∀ m q, last messages = Some m → m !! "content" = Some q →
      let embed :=
        Embed q (embed_model self) (embed_deployment self)
              (embed_dimensions self) in
      let embedding :=
        compute_text_embedding q (embed_model self) (embed_deployment self)
          (embed_dimensions self) w in
      (overrides !! "retrieval_mode" = Some (PStr "text") →
       ∃ rest, calls o = Search q [] top :: rest ∧ no_retrieval_calls rest)
      ∧ (overrides !! "retrieval_mode" = Some (PStr "vectors") →
         match embedding.1 with
         | Ok vector =>
             ∃ rest, calls o = embed :: Search PNone vector top :: rest
                     ∧ no_retrieval_calls rest
         | Raise e => calls o = [embed] ∧ returned o = Raise e
         end)
      ∧ (overrides !! "retrieval_mode" = Some (PStr "hybrid")
         ∨ overrides !! "retrieval_mode" = Some PNone
         ∨ overrides !! "retrieval_mode" = None →
         match embedding.1 with
         | Ok vector =>
             ∃ rest, calls o = embed :: Search q vector top :: rest
                     ∧ no_retrieval_calls rest
         | Raise e => calls o = [embed] ∧ returned o = Raise e
         end).
Proof.
  intros o top.
  assert (Hshape : ∀ m q, last messages = Some m → m !! "content" = Some q →
            if vector_search_of overrides then
              match compute_text_embedding q (embed_model self)
                      (embed_deployment self) (embed_dimensions self) w with
              | (Ok vector, _) =>
                  ∃ rest,
                    calls o =
                    Embed q (embed_model self) (embed_deployment self)
                          (embed_dimensions self)
                    :: Search (if text_search_of overrides then q else PNone)
                         vector top :: rest
                    ∧ no_retrieval_calls rest
              | (Raise e, _) =>
                  calls o = [Embed q (embed_model self)
                               (embed_deployment self)
                               (embed_dimensions self)]
                  ∧ returned o = Raise e
              end
            else
              ∃ rest,
                calls o =
                Search (if text_search_of overrides then q else PNone) []
                  top :: rest
                ∧ no_retrieval_calls rest).
  { intros m q Hl Hm.
    pose proof (run_log self messages overrides w m q Hl Hm) as Hlog.
    cbv zeta in Hlog. fold o top in Hlog.
    destruct (vector_search_of overrides).
    - destruct (compute_text_embedding _ _ _ _ w) as [[vector | e] w1].
      + destruct Hlog as [rest [Hc [Hnr _]]].
        exists rest. split; [exact Hc | exact Hnr].
      + exact Hlog.
    - destruct Hlog as [rest [Hc [Hnr _]]].
      exists rest. split; [exact Hc | exact Hnr]. }
  split.
  - intros [Ht Hv]%flags_text.
    destruct (last messages) as [m |] eqn:Hl;
      [| subst o; rewrite run_without_message by exact Hl; constructor].
    destruct (m !! "content") as [q |] eqn:Hm;
      [| subst o; rewrite (run_without_content _ _ _ _ m) by assumption;
         constructor].
    specialize (Hshape m q eq_refl Hm). rewrite Hv in Hshape.
    destruct Hshape as [rest [-> Hnr]].
    constructor; [reflexivity |].
    eapply Forall_impl; [exact Hnr |]. intros c [Hc _]. exact Hc.
  - intros m q Hl Hm embed embedding.
    specialize (Hshape m q Hl Hm). subst embed embedding.
    split; [| split].
    + intros [Ht Hv]%flags_text. rewrite Hv, Ht in Hshape. exact Hshape.
    + intros [Ht Hv]%flags_vectors. rewrite Hv, Ht in Hshape.
      destruct (compute_text_embedding _ _ _ _ w) as [[vector | e] w1];
        exact Hshape.
    + intros [Ht Hv]%flags_hybrid. rewrite Hv, Ht in Hshape.
      destruct (compute_text_embedding _ _ _ _ w) as [[vector | e] w1];
        exact Hshape.
Qed.

(** C8. The response of a completed run carries, on its first choice, a
    context whose [data_points.text] is the list of source blocks, one per
    retrieved item, and whose [thoughts] are exactly three steps: the
    search query with the [top], [vector_search] and [text_search] used;
    the retrieved items as plain records; the assembled prompt messages
    with the model and, when there is one, the deployment. *)
Theorem run_response_context (self : SimpleRAGChat)
    (messages : list (gmap string pyval)) (overrides : gmap string pyval)
    (w : W) (resp : ChatResp) :
  let o := run self messages overrides w in
  returned o = Ok resp →
  ∃ m q vector w1 results w2 prompt ch others ctx
    step1 step2 step3 props1 props3,
    let query_text := if text_search_of overrides then q else PNone in
    last messages = Some m ∧ m !! "content" = Some q
    ∧ (if vector_search_of overrides
       then compute_text_embedding q (embed_model self)
              (embed_deployment self) (embed_dimensions self) w
            = (Ok vector, w1)
       else vector = [] ∧ w1 = w)
    ∧ Search query_text vector (top_of overrides) ∈ calls o
    ∧ searcher_search query_text vector (top_of overrides) w1
      = (Ok results, w2)
    ∧ (∃ question,
         py_add_str q SOURCES_HEADER = Ok question
         ∧ build_messages (chat_model self)
             (py_or (dict_get overrides "prompt_template" PNone)
                    (PStr (answer_prompt_template self)))
             (question ++ sources_block results)%string
             (removelast messages) (chat_token_limit self - 1024)%Z true
           = Ok prompt)
    ∧ Create (create_request self overrides prompt) ∈ calls o
    ∧ resp_choices resp = ch :: others
    ∧ context ch = Some ctx
    ∧ text (data_points ctx) = map source_block results
    ∧ length (text (data_points ctx)) = length results
    ∧ thoughts ctx = [step1; step2; step3]
    ∧ title step1 = "Search query for database"
    ∧ description step1 = query_text
    ∧ props step1 = Some props1
    ∧ props1 !! "top" = Some (top_of overrides)
    ∧ props1 !! "vector_search" = Some (PBool (vector_search_of overrides))
    ∧ props1 !! "text_search" = Some (PBool (text_search_of overrides))
    ∧ title step2 = "Search results"
    ∧ description step2 = PList (map to_dict results)
    ∧ title step3 = "Prompt to generate answer"
    ∧ description step3
      = PList (map (λ message, PStr (str_message message)) prompt)
    ∧ props step3 = Some props3
    ∧ props3 !! "model" = Some (PStr (chat_model self))
    ∧ props3 !! "deployment"
      = (if str_truthy (chat_deployment self)
         then PStr <$> chat_deployment self
         else None).
Proof.
  intros o Hresp.
  destruct (run_returns self messages overrides w resp Hresp)
    as (m & q & vector & w1 & results & w2 & question & prompt
        & completion & w3 & ch & others & Hl & Hm & Hvec & Hsearch & Hq
        & Hbuild & _ & _ & Hcalls & ->).
  fold o in Hcalls.
  exists m, q, vector, w1, results, w2, prompt.
  do 8 eexists. cbv zeta.
  split; [exact Hl |]. split; [exact Hm |]. split; [exact Hvec |].
  split; [rewrite Hcalls; apply elem_of_app; right; left |].
  split; [exact Hsearch |].
  split; [exists question; split; [exact Hq | exact Hbuild] |].
  split; [rewrite Hcalls; apply elem_of_app; right; right; left |].
  split; [reflexivity |]. split; [reflexivity |].
  split; [reflexivity |]. split; [apply length_map |].
  split; [reflexivity |].
  split; [reflexivity |]. split; [reflexivity |]. split; [reflexivity |].
  split; [apply lookup_insert_eq |].
  split; [rewrite lookup_insert_ne by discriminate; apply lookup_insert_eq |].
  split; [rewrite !lookup_insert_ne by discriminate; apply lookup_insert_eq |].
  split; [reflexivity |]. split; [reflexivity |]. split; [reflexivity |].
  split; [reflexivity |]. split; [reflexivity |].
  destruct (chat_deployment self) as [d |]; simpl;
    [destruct (String.eqb d ""); simpl |].
  - split; [apply lookup_insert_eq |].
    rewrite lookup_insert_ne by discriminate. apply lookup_empty.
  - split; [apply lookup_insert_eq |].
    rewrite lookup_insert_ne by discriminate. apply lookup_insert_eq.
  - split; [apply lookup_insert_eq |].
    rewrite lookup_insert_ne by discriminate. apply lookup_empty.
Qed.

End RagSimpleClaims.

(* ===================================================================== *)
(** * The properties on the sample catalogue *)
(* ===================================================================== *)

Section Examples.

Import Sample.
Open Scope list_scope.

(** C5 on a response with an unrelated invocation and a
    [search_database] invocation that sets only [search_query]. *)
Lemma extract_query_only_example :
  extract_search_arguments json_loads
    (completion_with None (Some [other_call; search_call payload_query]))
  = Ok (PStr "red shoes", []).
Proof.
  apply (extract_query_only json_loads _
           (mkChoice (mkMessage None
              (Some [other_call; search_call payload_query]))) []
           [other_call] [] (search_call payload_query) "red shoes").
  - reflexivity.
  - reflexivity.
  - repeat constructor.
  - reflexivity.
  - reflexivity.
  - vm_compute. reflexivity.
Defined.

(** C6 on the payload with [price_filter] (">", 30) and [brand_filter]
    ("==", "AirStrider"). *)
Lemma extract_price_then_brand_example :
  extract_search_arguments json_loads
    (completion_with None (Some [search_call payload_filters]))
  = Ok (PStr "shoes",
        [mkFilter "price" (PStr ">") (PInt 30);
         mkFilter "brand" (PStr "==") (PStr "AirStrider")]).
Proof.
  etransitivity.
  - apply (extract_price_then_brand json_loads _
             (mkChoice (mkMessage None (Some [search_call payload_filters])))
             [] [] [] (search_call payload_filters)
             (<["search_query" := PStr "shoes"]>
              (<["price_filter" := PDict price_over_30]>
              (<["brand_filter" := PDict brand_airstrider]> ∅)))
             price_over_30 brand_airstrider
             (PStr ">") (PInt 30) (PStr "==") (PStr "AirStrider"));
      first [reflexivity | constructor | vm_compute; reflexivity].
  - vm_compute. reflexivity.
Defined.

(** C7 on a response with a padded content and on one with no content. *)
Lemma extract_without_tool_calls_example :
  extract_search_arguments json_loads
    (completion_with (Some "  red shoes ") None)
  = Ok (PStr "red shoes", [])
  ∧ extract_search_arguments json_loads (completion_with None (Some []))
    = Ok (PNone, []).
Proof.
  split.
  - apply (proj1 (extract_without_tool_calls json_loads
                    (completion_with (Some "  red shoes ") None)
                    (mkChoice (mkMessage (Some "  red shoes ") None)) []
                    eq_refl (or_introl eq_refl))
             "  red shoes ").
    + reflexivity.
    + discriminate.
  - apply (proj2 (extract_without_tool_calls json_loads
                    (completion_with None (Some []))
                    (mkChoice (mkMessage None (Some []))) []
                    eq_refl (or_intror eq_refl))).
    left. reflexivity.
Defined.

(** C9 on a payload cut short and on a [price_filter] without [value]. *)
Lemma extract_malformed_raises_example :
  raises (extract_search_arguments json_loads
            (completion_with (Some "red shoes")
               (Some [search_call payload_truncated])))
  ∧ raises (extract_search_arguments json_loads
              (completion_with None
                 (Some [other_call;
                        search_call payload_price_without_value]))).
Proof.
  split.
  - apply (extract_malformed_raises json_loads _
             (mkChoice (mkMessage (Some "red shoes")
                (Some [search_call payload_truncated]))) []
             [] [] (search_call payload_truncated)).
    + reflexivity.
    + reflexivity.
    + reflexivity.
    + reflexivity.
    + left. exists JSONDecodeError. vm_compute. reflexivity.
  - apply (extract_malformed_raises json_loads _
             (mkChoice (mkMessage None
                (Some [other_call;
                       search_call payload_price_without_value]))) []
             [other_call] [] (search_call payload_price_without_value)).
    + reflexivity.
    + reflexivity.
    + reflexivity.
    + reflexivity.
    + right.
      exists (<["search_query" := PStr "shoes"]>
              (<["price_filter" :=
                   PDict (<["comparison_operator" := PStr ">"]> ∅)]> ∅)).
      split; [vm_compute; reflexivity |].
      left. exists (PDict (<["comparison_operator" := PStr ">"]> ∅)).
      split; [vm_compute; reflexivity |].
      eexists. split; [reflexivity |]. right. vm_compute. reflexivity.
Defined.

(** C10 on a response with a content and one unrelated invocation. *)
Lemma extract_unread_tool_calls_example :
  extract_search_arguments json_loads
    (completion_with (Some "red shoes") (Some [other_call]))
  = Ok (PNone, []).
Proof.
  apply (extract_unread_tool_calls json_loads _
           (mkChoice (mkMessage (Some "red shoes") (Some [other_call])))
           [] [other_call]).
  - reflexivity.
  - reflexivity.
  - discriminate.
  - repeat constructor.
Defined.

(** Two [search_database] invocations in one response are both read: the
    query of the last one is returned and the filters add up. *)
Lemma extract_two_invocations_example :
  extract_search_arguments json_loads
    (completion_with None
       (Some [search_call payload_filters; search_call payload_query]))
  = Ok (PStr "red shoes",
        [mkFilter "price" (PStr ">") (PInt 30);
         mkFilter "brand" (PStr "==") (PStr "AirStrider")]).
Proof. vm_compute. reflexivity. Qed.

(** C3: the sources block of two products is not the one the
    specification words. Both the block of one product and the way two
    blocks are put together differ. *)
Lemma sources_block_not_as_specified :
  sources_block [runner; boot] ≠ spec_sources_block [runner; boot]
  ∧ source_block runner ≠ spec_source_block runner
  ∧ sources_block [runner; boot]
    ≠ String.concat "" (sources_content [runner; boot]).
Proof.
  split; [| split]; vm_compute; discriminate.
Qed.

(** C3 (as amended) on the two products. *)
Lemma sources_rendering_example :
  sources_content [runner; boot] !! 1%nat
  = Some ("[12]:Name:Hiking Boot Brand:Daybird" ++ LF ++ LF)%string
  ∧ sources_block ([runner] ++ [boot])
    = (sources_block [runner] ++ LF ++ sources_block [boot])%string.
Proof.
  destruct (sources_rendering [runner; boot]) as (_ & Hblock & _ & _ & Happ).
  split.
  - apply (Hblock 1%nat boot). reflexivity.
  - apply (Happ [runner] [boot]); discriminate.
Defined.

(** C1: with [retrieval_mode] "none" neither a query text nor a query
    vector is available, and the run still calls the retriever. *)
Lemma run_without_query_not_short_circuited :
  let overrides : gmap string pyval :=
    <["retrieval_mode" := PStr "none"]> ∅ in
  let o := run chat [user_says "red shoes"] overrides 0%nat in
  text_search_of overrides = false
  ∧ vector_search_of overrides = false
  ∧ Search PNone [] (PInt 3) ∈ calls o
  ∧ ¬ Forall (λ c, is_search c = false) (calls o).
Proof.
  split; [reflexivity |]. split; [reflexivity |].
  split; [apply list_elem_of_here |].
  intros H. apply Forall_inv in H. discriminate H.
Qed.

(** C1 (as amended) on the same run. *)
Lemma run_without_query_calls_retriever_example :
  let overrides : gmap string pyval :=
    <["retrieval_mode" := PStr "none"]> ∅ in
  ∃ rest,
    calls (run chat [user_says "red shoes"] overrides 0%nat)
    = Search PNone [] (PInt 3) :: rest.
Proof.
  intros overrides.
  destruct (run_without_query_calls_retriever chat [user_says "red shoes"]
              overrides 0%nat (user_says "red shoes") (PStr "red shoes")
              eq_refl eq_refl eq_refl eq_refl)
    as [rest [Hcalls _]].
  exists rest. exact Hcalls.
Defined.

(** C2: a ["top"] of zero reaches the retriever as it is. *)
Lemma search_top_zero :
  let overrides : gmap string pyval := <["top" := PInt 0]> ∅ in
  ¬ ∀ query_text vector top,
      Search query_text vector top
        ∈ calls (run chat [user_says "red shoes"] overrides 0%nat) →
      is_positive_int top = true.
Proof.
  intros overrides H.
  specialize (H (PStr "red shoes") [1 # 2; 1 # 4] (PInt 0)).
  discriminate H.
  apply list_elem_of_further, list_elem_of_here.
Qed.

(** C2 (as amended) on a run with no overrides. *)
Lemma search_top_is_override_example :
  PInt 3 = default (PInt 3) ((∅ : gmap string pyval) !! "top")
  ∧ (is_positive_int (PInt 3) = true ↔
     (∅ : gmap string pyval) !! "top" = None
     ∨ ∃ n, (∅ : gmap string pyval) !! "top" = Some (PInt n) ∧ (0 < n)%Z).
Proof.
  apply (search_top_is_override chat [user_says "red shoes"] ∅ 0%nat
           (PStr "red shoes") [1 # 2; 1 # 4] (PInt 3)).
  apply list_elem_of_further, list_elem_of_here.
Defined.

(** C4 on the sample services, with [retrieval_mode] "vectors". *)
Lemma embedding_follows_retrieval_mode_example :
  let overrides : gmap string pyval :=
    <["retrieval_mode" := PStr "vectors"]> ∅ in
  ∃ rest,
    calls (run chat [user_says "red shoes"] overrides 0%nat)
    = Embed (PStr "red shoes") "text-embedding-3-small" None 1536
      :: Search PNone [1 # 2; 1 # 4] (PInt 3) :: rest
    ∧ no_retrieval_calls rest.
Proof.
  intros overrides.
  exact (proj1 (proj2 (proj2 (embedding_follows_retrieval_mode chat
                                [user_says "red shoes"] overrides 0%nat)
                         (user_says "red shoes") (PStr "red shoes")
                         eq_refl eq_refl))
           eq_refl).
Defined.

(** C8 on a run with no overrides: three thought steps and one source
    block per product. *)
Lemma run_response_context_example :
  ∃ resp ch others ctx,
    returned (run chat [user_says "red shoes"] ∅ 0%nat) = Ok resp
    ∧ resp_choices resp = ch :: others
    ∧ context ch = Some ctx
    ∧ length (text (data_points ctx)) = 2%nat
    ∧ length (thoughts ctx) = 3%nat.
Proof.
  destruct (returned (run chat [user_says "red shoes"] ∅ 0%nat))
    as [resp |] eqn:Hresp; [| discriminate Hresp].
  destruct (run_response_context chat [user_says "red shoes"] ∅ 0%nat resp
              Hresp)
    as (m & q & vector & w1 & results & w2 & prompt & ch & others & ctx
        & step1 & step2 & step3 & props1 & props3 & _ & _ & Hvec & _
        & Hsearch & _ & _ & Hch & Hctx & _ & Hlen & Hth & _).
  exists resp, ch, others, ctx.
  split; [reflexivity |]. split; [exact Hch |]. split; [exact Hctx |].
  split.
  - rewrite Hlen. injection Hsearch as <- _. reflexivity.
  - rewrite Hth. reflexivity.
Defined.

End Examples.

(* ===================================================================== *)
(** * Further properties of [extract_search_arguments] *)
(* ===================================================================== *)

Section QueryRewriterMore.

Open Scope list_scope.

Variable json_loads : string → result pyval.

(** What one invocation adds: at most a price filter, then at most a brand
    filter, after the filters gathered so far. *)
Lemma search_database_call_adds (function : Function)
    (filters filters' : list Filter) (q : pyval) :
  search_database_call json_loads function filters = Ok (q, filters') →
  ∃ d added,
    json_loads (arguments function) = Ok (PDict d)
    ∧ q = dict_get d "search_query" PNone
    ∧ filters' = filters ++ added
    ∧ Forall (λ f, column f = "price" ∨ column f = "brand") added
    ∧ (length added ≤ 2)%nat.
Proof.
  intros H.
  destruct (json_loads (arguments function)) as [[| | | | | | d] | e] eqn:Hj;
    try (unfold search_database_call in H; rewrite Hj in H; discriminate H).
  rewrite (search_database_call_dict json_loads function d filters Hj) in H.
  exists d.
  destruct (d !! "price_filter") as [pf |];
    destruct (d !! "brand_filter") as [bf |];
    cbn [mbind result_bind mret result_ret] in H;
    repeat match type of H with
      | context [py_getitem ?v ?k] =>
          destruct (py_getitem v k);
          cbn [mbind result_bind mret result_ret] in H;
          try discriminate H
      end;
    injection H as <- <-.
  all: eexists; (split; [reflexivity |]); (split; [reflexivity |]).
  - rewrite <- app_assoc. split; [reflexivity |].
    split; [simpl; repeat (constructor; [simpl; auto |]); constructor
           | simpl; lia].
  - split; [reflexivity |].
    split; [simpl; repeat (constructor; [simpl; auto |]); constructor
           | simpl; lia].
  - split; [reflexivity |].
    split; [simpl; repeat (constructor; [simpl; auto |]); constructor
           | simpl; lia].
  - split; [symmetry; apply app_nil_r |].
    split; [constructor | simpl; lia].
Qed.


(** X1. The loop over a concatenation is the loop over the first part followed
    by the loop over the second part, from where the first part ended. *)
Theorem scan_tool_calls_app (xs ys : list ToolCall)
    (search_query : pyval) (filters : list Filter) :
  scan_tool_calls json_loads (xs ++ ys) search_query filters
  = scan_tool_calls json_loads xs search_query filters
      ≫= (λ '(q, fs), scan_tool_calls json_loads ys q fs).
Proof.
  revert search_query filters.
  induction xs as [| x xs IH]; intros search_query filters; [reflexivity |].
  rewrite <- app_comm_cons.
  destruct (is_search_database x) eqn:Hx.
  - rewrite !scan_read by exact Hx.
    destruct (search_database_call json_loads (function x) filters)
      as [[q fs] | e]; [apply IH | reflexivity].
  - rewrite !scan_pass by exact Hx. apply IH.
Qed.

(** The loop only ever appends to [filters], at most two filters for each
    invocation it reads, each on the column "price" or "brand". *)
Lemma scan_grows (tools : list ToolCall) (q q' : pyval)
    (filters filters' : list Filter) :
  scan_tool_calls json_loads tools q filters = Ok (q', filters') →
  ∃ added,
    filters' = filters ++ added
    ∧ Forall (λ f, column f = "price" ∨ column f = "brand") added
    ∧ (length added ≤ 2 * invocations_read tools)%nat.
Proof.
  revert q filters.
  induction tools as [| tool tools IH]; intros q filters H.
  - injection H as <- <-. exists []. rewrite app_nil_r.
    split; [reflexivity |]. split; [constructor | simpl; lia].
  - unfold invocations_read. simpl List.filter.
    destruct (is_search_database tool) eqn:Ht.
    + rewrite scan_read in H by exact Ht.
      destruct (search_database_call json_loads (function tool) filters)
        as [[q1 f1] | e] eqn:Hcall; [| discriminate H].
      cbn [mbind result_bind] in H.
      apply search_database_call_adds in Hcall
        as (d & added1 & _ & _ & -> & Hcol1 & Hlen1).
      apply IH in H as (added2 & -> & Hcol2 & Hlen2).
      exists (added1 ++ added2). rewrite app_assoc.
      split; [reflexivity |]. split; [apply Forall_app; auto |].
      rewrite length_app. unfold invocations_read in Hlen2. simpl. lia.
    + rewrite scan_pass in H by exact Ht.
      apply IH in H as (added & -> & Hcol & Hlen).
      exists added. auto.
Qed.

(** X2. Every filter returned is on the column "price" or "brand", and there
    are at most two filters for each [search_database] invocation of the
    response. *)
Theorem extract_filters_bounded (chat_completion : ChatCompletion)
    (choice0 : Choice) (rest : list Choice)
    (q : pyval) (filters : list Filter) :
  choices chat_completion = choice0 :: rest →
  extract_search_arguments json_loads chat_completion = Ok (q, filters) →
  Forall (λ f, column f = "price" ∨ column f = "brand") filters
  ∧ (length filters
     ≤ 2 * invocations_read (default [] (tool_calls (message choice0))))%nat.
Proof.
  intros Hc H. unfold extract_search_arguments in H. rewrite Hc in H.
  destruct (tool_calls (message choice0)) as [[| tool tools] |].
  - destruct (content (message choice0)) as [s |];
      [destruct (negb (String.eqb s "")) |]; injection H as _ <-;
      (split; [constructor | simpl; lia]).
  - apply scan_grows in H as (added & -> & Hcol & Hlen).
    split; assumption.
  - destruct (content (message choice0)) as [s |];
      [destruct (negb (String.eqb s "")) |]; injection H as _ <-;
      (split; [constructor | simpl; lia]).
Qed.

(** X3. The search query returned is the one of the last [search_database]
    invocation, [None] when that one has no [search_query], whatever the
    earlier invocations held. *)
Theorem extract_query_of_last_invocation (chat_completion : ChatCompletion)
    (choice0 : Choice) (rest : list Choice)
    (pre post : list ToolCall) (tool : ToolCall)
    (q : pyval) (filters : list Filter) :
  choices chat_completion = choice0 :: rest →
  tool_calls (message choice0) = Some (pre ++ tool :: post) →
  type tool = "function" →
  name (function tool) = "search_database" →
  Forall (λ t, is_search_database t = false) post →
  extract_search_arguments json_loads chat_completion = Ok (q, filters) →
  ∃ d, json_loads (arguments (function tool)) = Ok (PDict d)
       ∧ q = dict_get d "search_query" PNone.
Proof.
  intros Hc Ht Hty Hn Hpost H.
  assert (Htool : is_search_database tool = true)
    by (apply is_search_database_spec; split; assumption).
  rewrite (extract_tool_calls _ _ _ _ _ Hc Ht) in H
    by (destruct pre; discriminate).
  rewrite scan_tool_calls_app in H.
  destruct (scan_tool_calls json_loads pre PNone []) as [[q0 f0] | e];
    [| discriminate H].
  cbn [mbind result_bind] in H. rewrite scan_read in H by exact Htool.
  destruct (search_database_call json_loads (function tool) f0)
    as [[q1 f1] | e] eqn:Hcall; [| discriminate H].
  cbn [mbind result_bind] in H. rewrite scan_passed in H by exact Hpost.
  injection H as <- _.
  apply search_database_call_adds in Hcall as (d & _ & Hd & Hq & _).
  exists d. split; assumption.
Qed.

(** X4. A payload that decodes to something other than an object makes the
    extractor raise [AttributeError]. *)
Theorem extract_non_object_payload (chat_completion : ChatCompletion)
    (choice0 : Choice) (rest : list Choice)
    (pre post : list ToolCall) (tool : ToolCall) (v : pyval) :
  choices chat_completion = choice0 :: rest →
  tool_calls (message choice0) = Some (pre ++ tool :: post) →
  Forall (λ t, is_search_database t = false) pre →
  type tool = "function" →
  name (function tool) = "search_database" →
  json_loads (arguments (function tool)) = Ok v →
  (∀ d, v ≠ PDict d) →
  extract_search_arguments json_loads chat_completion = Raise AttributeError.
Proof.
  intros Hc Ht Hpre Hty Hn Hj Hv.
  assert (Htool : is_search_database tool = true)
    by (apply is_search_database_spec; split; assumption).
  rewrite (extract_tool_calls _ _ _ _ _ Hc Ht)
    by (destruct pre; discriminate).
  rewrite scan_passed_prefix by exact Hpre.
  rewrite scan_read by exact Htool.
  unfold search_database_call. rewrite Hj.
  destruct v; try reflexivity. destruct (Hv d eq_refl).
Qed.

(** X5. A [price_filter] that is present but is not an object (null, a number,
    a string) raises [TypeError]; one that is an object raises [KeyError]
    on "comparison_operator" when it lacks it, and on "value" when it only
    lacks that. *)
Theorem extract_price_filter_errors (chat_completion : ChatCompletion)
    (choice0 : Choice) (rest : list Choice)
    (pre post : list ToolCall) (tool : ToolCall)
    (d : gmap string pyval) (price_filter : pyval) :
  choices chat_completion = choice0 :: rest →
  tool_calls (message choice0) = Some (pre ++ tool :: post) →
  Forall (λ t, is_search_database t = false) pre →
  type tool = "function" →
  name (function tool) = "search_database" →
  json_loads (arguments (function tool)) = Ok (PDict d) →
  d !! "price_filter" = Some price_filter →
  ((∀ f, price_filter ≠ PDict f) →
   extract_search_arguments json_loads chat_completion = Raise TypeError)
  ∧ (∀ f, price_filter = PDict f →
       f !! "comparison_operator" = None →
       extract_search_arguments json_loads chat_completion
       = Raise (KeyError "comparison_operator"))
  ∧ (∀ f op, price_filter = PDict f →
       f !! "comparison_operator" = Some op →
       f !! "value" = None →
       extract_search_arguments json_loads chat_completion
       = Raise (KeyError "value")).
Proof.
  intros Hc Ht Hpre Hty Hn Hj Hp.
  assert (Htool : is_search_database tool = true)
    by (apply is_search_database_spec; split; assumption).
  rewrite (extract_tool_calls _ _ _ _ _ Hc Ht)
    by (destruct pre; discriminate).
  rewrite scan_passed_prefix by exact Hpre.
  rewrite scan_read by exact Htool.
  rewrite (search_database_call_dict _ _ _ _ Hj), Hp.
  split; [| split].
  - intros Hf. destruct price_filter; try reflexivity.
    destruct (Hf d0 eq_refl).
  - intros f -> Hop. cbn [py_getitem]. unfold dict_getitem.
    rewrite Hop. reflexivity.
  - intros f op -> Hop Hv. cbn [py_getitem]. unfold dict_getitem.
    rewrite Hop, Hv. reflexivity.
Qed.

(** The same result with two decoders that agree on the payload of every
    invocation that is read, or decode it to two objects with the same
    [search_query], [price_filter] and [brand_filter]. *)
Lemma scan_agree (json_loads' : string → result pyval)
    (tools : list ToolCall) (q : pyval) (filters : list Filter) :
  (∀ tool, tool ∈ tools → is_search_database tool = true →
     json_loads (arguments (function tool))
     = json_loads' (arguments (function tool))
     ∨ ∃ d d',
         json_loads (arguments (function tool)) = Ok (PDict d)
         ∧ json_loads' (arguments (function tool)) = Ok (PDict d')
         ∧ d !! "search_query" = d' !! "search_query"
         ∧ d !! "price_filter" = d' !! "price_filter"
         ∧ d !! "brand_filter" = d' !! "brand_filter") →
  scan_tool_calls json_loads tools q filters
  = scan_tool_calls json_loads' tools q filters.
Proof.
  revert q filters.
  induction tools as [| tool tools IH]; intros q filters H; [reflexivity |].
  assert (IH' : ∀ q filters,
             scan_tool_calls json_loads tools q filters
             = scan_tool_calls json_loads' tools q filters).
  { intros q' filters'. apply IH. intros t Ht. apply H. right. exact Ht. }
  destruct (is_search_database tool) eqn:Htool.
  - rewrite !scan_read by exact Htool.
    assert (Hcall : search_database_call json_loads (function tool) filters
                    = search_database_call json_loads' (function tool) filters).
    { destruct (H tool (list_elem_of_here _ _) Htool)
        as [Heq | (d & d' & Hd & Hd' & Hq & Hp & Hb)].
      - unfold search_database_call. rewrite Heq. reflexivity.
      - rewrite (search_database_call_dict _ _ _ _ Hd),
          (search_database_call_dict _ _ _ _ Hd').
        unfold dict_get. rewrite Hq, Hp, Hb. reflexivity. }
    rewrite Hcall.
    destruct (search_database_call json_loads' (function tool) filters)
      as [[q1 f1] | e]; [apply IH' | reflexivity].
  - rewrite !scan_pass by exact Htool. apply IH'.
Qed.

Lemma extract_agree (json_loads' : string → result pyval)
    (chat_completion : ChatCompletion) :
  (∀ choice0 rest tools tool,
     choices chat_completion = choice0 :: rest →
     tool_calls (message choice0) = Some tools →
     tool ∈ tools → is_search_database tool = true →
     json_loads (arguments (function tool))
     = json_loads' (arguments (function tool))
     ∨ ∃ d d',
         json_loads (arguments (function tool)) = Ok (PDict d)
         ∧ json_loads' (arguments (function tool)) = Ok (PDict d')
         ∧ d !! "search_query" = d' !! "search_query"
         ∧ d !! "price_filter" = d' !! "price_filter"
         ∧ d !! "brand_filter" = d' !! "brand_filter") →
  extract_search_arguments json_loads chat_completion
  = extract_search_arguments json_loads' chat_completion.
Proof.
  intros H. unfold extract_search_arguments.
  destruct (choices chat_completion) as [| choice0 rest] eqn:Hc;
    [reflexivity |].
  destruct (tool_calls (message choice0)) as [[| tool tools] |] eqn:Ht;
    try reflexivity.
  apply scan_agree. intros t Hin Hread.
  exact (H choice0 rest (tool :: tools) t eq_refl Ht Hin Hread).
Qed.

(** X6. The payload of an invocation that is passed over (another kind, another
    function name) is never decoded: two decoders that agree on the
    payloads of the [search_database] invocations give the same result. *)
Theorem extract_decodes_only_read_invocations
    (json_loads' : string → result pyval)
    (chat_completion : ChatCompletion) :
  (∀ choice0 rest tools tool,
     choices chat_completion = choice0 :: rest →
     tool_calls (message choice0) = Some tools →
     tool ∈ tools →
     type tool = "function" → name (function tool) = "search_database" →
     json_loads (arguments (function tool))
     = json_loads' (arguments (function tool))) →
  extract_search_arguments json_loads chat_completion
  = extract_search_arguments json_loads' chat_completion.
Proof.
  intros H. apply extract_agree.
  intros choice0 rest tools tool Hc Ht Hin [Hty Hn]%is_search_database_spec.
  left. exact (H choice0 rest tools tool Hc Ht Hin Hty Hn).
Qed.

(** X7. Of an argument object only [search_query], [price_filter] and
    [brand_filter] are read: two decoders whose objects, for the payload of
    every [search_database] invocation, agree on these three keys give the
    same result, whatever other keys the objects hold. *)
Theorem extract_reads_three_keys (json_loads' : string → result pyval)
    (chat_completion : ChatCompletion) :
  (∀ choice0 rest tools tool,
     choices chat_completion = choice0 :: rest →
     tool_calls (message choice0) = Some tools →
     tool ∈ tools →
     type tool = "function" → name (function tool) = "search_database" →
     ∃ d d',
       json_loads (arguments (function tool)) = Ok (PDict d)
       ∧ json_loads' (arguments (function tool)) = Ok (PDict d')
       ∧ d !! "search_query" = d' !! "search_query"
       ∧ d !! "price_filter" = d' !! "price_filter"
       ∧ d !! "brand_filter" = d' !! "brand_filter") →
  extract_search_arguments json_loads chat_completion
  = extract_search_arguments json_loads' chat_completion.
Proof.
  intros H. apply extract_agree.
  intros choice0 rest tools tool Hc Ht Hin [Hty Hn]%is_search_database_spec.
  right. exact (H choice0 rest tools tool Hc Ht Hin Hty Hn).
Qed.

Lemma lstrip_all_space (s : string) : all_space s = true → lstrip s = "".
Proof.
  induction s as [| c s IH]; [reflexivity |]. simpl.
  intros [Hc Hs]%andb_true_iff. rewrite Hc. apply IH. exact Hs.
Qed.

(** X8. A content made of whitespace only gives the empty string as search
    query, not a null one. *)
Theorem extract_blank_content (chat_completion : ChatCompletion)
    (choice0 : Choice) (rest : list Choice) (s : string) :
  choices chat_completion = choice0 :: rest →
  tool_calls (message choice0) = None
  ∨ tool_calls (message choice0) = Some [] →
  content (message choice0) = Some s →
  s ≠ "" → all_space s = true →
  extract_search_arguments json_loads chat_completion = Ok (PStr "", []).
Proof.
  intros Hc Ht Hs Hne Hsp. unfold extract_search_arguments. rewrite Hc, Hs.
  apply String.eqb_neq in Hne. rewrite Hne. simpl negb. cbv iota.
  unfold strip. rewrite lstrip_all_space by exact Hsp.
  destruct Ht as [-> | ->]; reflexivity.
Qed.

End QueryRewriterMore.

(** X9. The tool [build_search_function] declares is the one the extractor
    reads: an invocation with the declared type and function name is read,
    the declared parameters are the three keys the extractor looks up, and
    each filter declares the two fields the extractor looks up, neither as
    required. *)
Theorem build_search_function_matches_extractor :
  ∃ tool fn ty n parameters properties,
    build_search_function = [PDict tool]
    ∧ tool !! "type" = Some (PStr ty)
    ∧ tool !! "function" = Some (PDict fn)
    ∧ fn !! "name" = Some (PStr n)
    ∧ (∀ payload,
         is_search_database (mkToolCall ty (mkFunction n payload)) = true)
    ∧ fn !! "parameters" = Some (PDict parameters)
    ∧ parameters !! "required" = Some (PList [PStr "search_query"])
    ∧ parameters !! "properties" = Some (PDict properties)
    ∧ dom properties
      = ({["search_query"; "price_filter"; "brand_filter"]} : gset string)
    ∧ (∃ p, properties !! "price_filter" = Some p
            ∧ declared_keys p
              = Ok ({["comparison_operator"; "value"]} : gset string)
            ∧ py_getitem p "required" = Raise (KeyError "required"))
    ∧ (∃ p, properties !! "brand_filter" = Some p
            ∧ declared_keys p
              = Ok ({["comparison_operator"; "value"]} : gset string)
            ∧ py_getitem p "required" = Raise (KeyError "required")).
Proof.
  unfold build_search_function.
  do 6 eexists.
  split; [reflexivity |]. split; [vm_compute; reflexivity |].
  split; [vm_compute; reflexivity |]. split; [vm_compute; reflexivity |].
  split; [intros payload; reflexivity |].
  split; [vm_compute; reflexivity |]. split; [vm_compute; reflexivity |].
  split; [vm_compute; reflexivity |]. split; [vm_compute; reflexivity |].
  split; eexists;
    (split; [vm_compute; reflexivity |]); split; vm_compute; reflexivity.
Qed.

(* ===================================================================== *)
(** * Further properties of [SimpleRAGChat.run] *)
(* ===================================================================== *)

(** Runs the first statements of [run], up to the retrieval, on a list that
    ends with a message with a content, given how the embedding went. *)
Ltac run_to_retrieval Hl Hm Hemb :=
  unfold run, last_message, dict_getitem, embedded, calls_to_retrieval in *;
  rewrite Hl, bind_pure_ok, Hm, bind_pure_ok;
  destruct (vector_search_of _) eqn:?;
  [ rewrite (bind_call_ok _ _ _ _ _ _ Hemb)
  | destruct Hemb as [-> ->]; rewrite bind_ret ].

(** Runs a service call of which the result is known. *)
Ltac run_call H :=
  first [ rewrite (bind_call_ok _ _ _ _ _ _ H)
        | rewrite (bind_call_raise _ _ _ _ _ _ H) ].

Section RagSimpleMore.

Open Scope list_scope.

Context {W Item PromptMessage : Type}.
Context `{!ItemModel Item} `{!TokenHelper PromptMessage}
        `{!Services W Item PromptMessage}.

(** X10. A run that cannot find the content of a last message raises before any
    service is called: [IndexError] on an empty list of messages,
    [KeyError] when the last message has no "content". *)
Theorem run_rejects_missing_content (self : SimpleRAGChat)
    (overrides : gmap string pyval) (w : W) :
  run self [] overrides w = mkOutcome (Raise IndexError) w []
  ∧ ∀ past m, m !! "content" = None →
      run self (past ++ [m]) overrides w
      = mkOutcome (Raise (KeyError "content")) w [].
Proof.
  split.
  - apply run_without_message. reflexivity.
  - intros past m Hm. apply (run_without_content _ _ _ _ m); [| exact Hm].
    apply last_snoc.
Qed.

(** X11. The error of a service is the error of the run, which stops there: an
    embedding that raises leaves the retriever and the chat completion
    uncalled, a retrieval that raises leaves the chat completion uncalled. *)
Theorem run_service_error_ends_run (self : SimpleRAGChat)
    (messages : list (gmap string pyval)) (overrides : gmap string pyval)
    (w : W) (m : gmap string pyval) (q : pyval) :
  last messages = Some m → m !! "content" = Some q →
  let query_text := if text_search_of overrides then q else PNone in
  (∀ e w1,
     vector_search_of overrides = true →
     compute_text_embedding q (embed_model self) (embed_deployment self)
       (embed_dimensions self) w = (Raise e, w1) →
     run self messages overrides w
     = mkOutcome (Raise e) w1
         [Embed q (embed_model self) (embed_deployment self)
            (embed_dimensions self)])
  ∧ (∀ vector w1 e w2,
       embedded self overrides q w vector w1 →
       searcher_search query_text vector (top_of overrides) w1
       = (Raise e, w2) →
       run self messages overrides w
       = mkOutcome (Raise e) w2 (calls_to_retrieval self overrides q vector))
  ∧ (∀ vector w1 results w2 question prompt e w3,
       embedded self overrides q w vector w1 →
       searcher_search query_text vector (top_of overrides) w1
       = (Ok results, w2) →
       py_add_str q SOURCES_HEADER = Ok question →
       build_messages (chat_model self)
         (py_or (dict_get overrides "prompt_template" PNone)
                (PStr (answer_prompt_template self)))
         (question ++ sources_block results)%string (removelast messages)
         (chat_token_limit self - 1024)%Z true = Ok prompt →
       chat_completions_create (create_request self overrides prompt) w2
       = (Raise e, w3) →
       run self messages overrides w
       = mkOutcome (Raise e) w3
           (calls_to_retrieval self overrides q vector
            ++ [Create (create_request self overrides prompt)])).
Proof.
  intros Hl Hm query_text. subst query_text. split; [| split].
  - intros e w1 Hv He. unfold run, last_message, dict_getitem.
    rewrite Hl, bind_pure_ok, Hm, bind_pure_ok, Hv.
    run_call He. reflexivity.
  - intros vector w1 e w2 Hemb Hs.
    run_to_retrieval Hl Hm Hemb; run_call Hs; reflexivity.
  - intros vector w1 results w2 question prompt e w3 Hemb Hs Hq Hb Hc.
    run_to_retrieval Hl Hm Hemb; run_call Hs;
      rewrite Hq, bind_pure_ok, Hb, bind_pure_ok; run_call Hc; reflexivity.
Qed.

(** X12. A content that is not a str is not turned away at the start: the
    embedding and the retrieval are called with it, and the run raises
    [TypeError] when it builds the new user message, before any chat
    completion. An error of [build_messages] ends the run at the same
    point. *)
Theorem run_prompt_failure_skips_completion (self : SimpleRAGChat)
    (messages : list (gmap string pyval)) (overrides : gmap string pyval)
    (w : W) (m : gmap string pyval) (q : pyval)
    (vector : list Q) (w1 : W) (results : list Item) (w2 : W) :
  last messages = Some m → m !! "content" = Some q →
  embedded self overrides q w vector w1 →
  searcher_search (if text_search_of overrides then q else PNone) vector
    (top_of overrides) w1 = (Ok results, w2) →
  ((∀ s, q ≠ PStr s) →
   run self messages overrides w
   = mkOutcome (Raise TypeError) w2
       (calls_to_retrieval self overrides q vector))
  ∧ (∀ question e,
       py_add_str q SOURCES_HEADER = Ok question →
       build_messages (chat_model self)
         (py_or (dict_get overrides "prompt_template" PNone)
                (PStr (answer_prompt_template self)))
         (question ++ sources_block results)%string (removelast messages)
         (chat_token_limit self - 1024)%Z true = Raise e →
       run self messages overrides w
       = mkOutcome (Raise e) w2 (calls_to_retrieval self overrides q vector)).
Proof.
  intros Hl Hm Hemb Hs. split.
  - intros Hq.
    assert (Hadd : py_add_str q SOURCES_HEADER = Raise TypeError)
      by (destruct q; try reflexivity; destruct (Hq s eq_refl)).
    run_to_retrieval Hl Hm Hemb; run_call Hs; rewrite Hadd; reflexivity.
  - intros question e Hq Hb.
    run_to_retrieval Hl Hm Hemb; run_call Hs;
      rewrite Hq, bind_pure_ok, Hb; reflexivity.
Qed.

(** X13. A completion without any choice makes the run raise [IndexError],
    after all the services have been called. *)
Theorem run_completion_without_choice (self : SimpleRAGChat)
    (messages : list (gmap string pyval)) (overrides : gmap string pyval)
    (w : W) (m : gmap string pyval) (q : pyval)
    (vector : list Q) (w1 : W) (results : list Item) (w2 : W)
    (question : string) (prompt : list PromptMessage)
    (completion : ChatCompletion) (w3 : W) :
  last messages = Some m → m !! "content" = Some q →
  embedded self overrides q w vector w1 →
  searcher_search (if text_search_of overrides then q else PNone) vector
    (top_of overrides) w1 = (Ok results, w2) →
  py_add_str q SOURCES_HEADER = Ok question →
  build_messages (chat_model self)
    (py_or (dict_get overrides "prompt_template" PNone)
           (PStr (answer_prompt_template self)))
    (question ++ sources_block results)%string (removelast messages)
    (chat_token_limit self - 1024)%Z true = Ok prompt →
  chat_completions_create (create_request self overrides prompt) w2
  = (Ok completion, w3) →
  choices completion = [] →
  run self messages overrides w
  = mkOutcome (Raise IndexError) w3
      (calls_to_retrieval self overrides q vector
       ++ [Create (create_request self overrides prompt)]).
Proof.
  intros Hl Hm Hemb Hs Hq Hb Hc Hch.
  run_to_retrieval Hl Hm Hemb; run_call Hs;
    rewrite Hq, bind_pure_ok, Hb, bind_pure_ok; run_call Hc;
    unfold pure_step, set_first_context, model_dump; rewrite Hch;
    reflexivity.
Qed.


(** The calls of a run, whatever its input and however it ends: none, the
    embedding alone, the calls up to the retrieval, or those followed by one
    chat completion on the messages [build_messages] returned. *)
Lemma run_calls_shape (self : SimpleRAGChat)
    (messages : list (gmap string pyval)) (overrides : gmap string pyval)
    (w : W) :
  let o := run self messages overrides w in
  calls o = []
  ∨ (∃ q, vector_search_of overrides = true
          ∧ calls o = [Embed q (embed_model self) (embed_deployment self)
                         (embed_dimensions self)])
  ∨ ∃ m q vector,
      last messages = Some m ∧ m !! "content" = Some q
      ∧ (calls o = calls_to_retrieval self overrides q vector
         ∨ ∃ results question prompt,
             py_add_str q SOURCES_HEADER = Ok question
             ∧ build_messages (chat_model self)
                 (py_or (dict_get overrides "prompt_template" PNone)
                        (PStr (answer_prompt_template self)))
                 (question ++ sources_block results)%string
                 (removelast messages)
                 (chat_token_limit self - 1024)%Z true = Ok prompt
             ∧ calls o
               = calls_to_retrieval self overrides q vector
                 ++ [Create (create_request self overrides prompt)]).
Proof.
  cbv zeta.
  destruct (last messages) as [m |] eqn:Hl;
    [| rewrite run_without_message by exact Hl; left; reflexivity].
  destruct (m !! "content") as [q |] eqn:Hm;
    [| rewrite (run_without_content _ _ _ _ m) by assumption;
       left; reflexivity].
  unfold run, last_message, dict_getitem, calls_to_retrieval.
  rewrite Hl, bind_pure_ok, Hm, bind_pure_ok.
  destruct (vector_search_of overrides) eqn:Hv.
  - step_run; [| right; left; eauto].
    right; right. exists m, q, x. split; [reflexivity |].
    split; [exact Hm |].
    repeat step_run; cbn [calls pure_step];
      first [ left; reflexivity
            | right; do 3 eexists; split; [reflexivity |];
              split; [eassumption | reflexivity] ].
  - step_run.
    right; right. exists m, q, []. split; [reflexivity |].
    split; [exact Hm |].
    repeat step_run; cbn [calls pure_step];
      first [ left; reflexivity
            | right; do 3 eexists; split; [reflexivity |];
              split; [eassumption | reflexivity] ].
Qed.

(** X14. A run calls each service at most once, the embedding before the
    retrieval before the chat completion; it calls the chat completion only
    after a retrieval, and the embedding only when the vector search is
    on, in which case no retrieval happens without it. *)
Theorem run_calls_ordered (self : SimpleRAGChat)
    (messages : list (gmap string pyval)) (overrides : gmap string pyval)
    (w : W) :
  ∃ embeds searches creates,
    calls (run self messages overrides w) = embeds ++ searches ++ creates
    ∧ Forall (λ c, is_embed c = true) embeds
    ∧ Forall (λ c, is_search c = true) searches
    ∧ Forall (λ c, is_create c = true) creates
    ∧ (length embeds ≤ 1 ∧ length searches ≤ 1 ∧ length creates ≤ 1)%nat
    ∧ (creates ≠ [] → searches ≠ [])
    ∧ (embeds ≠ [] ↔ vector_search_of overrides = true ∧ embeds ++ searches ≠ []).
Proof.
  pose proof (run_calls_shape self messages overrides w) as Hshape.
  cbv zeta in Hshape. unfold calls_to_retrieval in Hshape.
  assert (Hgoal : ∀ embeds searches creates : list (Call PromptMessage),
            calls (run self messages overrides w)
            = embeds ++ searches ++ creates →
            Forall (λ c, is_embed c = true) embeds →
            Forall (λ c, is_search c = true) searches →
            Forall (λ c, is_create c = true) creates →
            (length embeds ≤ 1 ∧ length searches ≤ 1 ∧ length creates ≤ 1)%nat →
            (creates ≠ [] → searches ≠ []) →
            (embeds ≠ [] ↔
             vector_search_of overrides = true ∧ embeds ++ searches ≠ []) →
            ∃ embeds searches creates,
              calls (run self messages overrides w)
              = embeds ++ searches ++ creates
              ∧ Forall (λ c, is_embed c = true) embeds
              ∧ Forall (λ c, is_search c = true) searches
              ∧ Forall (λ c, is_create c = true) creates
              ∧ (length embeds ≤ 1 ∧ length searches ≤ 1
                 ∧ length creates ≤ 1)%nat
              ∧ (creates ≠ [] → searches ≠ [])
              ∧ (embeds ≠ [] ↔
                 vector_search_of overrides = true
                 ∧ embeds ++ searches ≠ [])).
  { intros embeds searches creates ? ? ? ? ? ? ?.
    exists embeds, searches, creates. repeat split; tauto. }
  assert (Hnil : ∀ A (x : A) (l : list A), x :: l ≠ []) by discriminate.
  destruct Hshape as [Hc | [(q & Hv & Hc) | (m & q & vector & _ & _ & Hc)]].
  - apply (Hgoal [] [] []); auto; try (simpl; lia).
    split; [intros He; destruct He; reflexivity | intros [_ He]; exact He].
  - apply (Hgoal [Embed q (embed_model self) (embed_deployment self)
                    (embed_dimensions self)] [] []);
      auto; try (simpl; lia); try solve [repeat constructor].
    split; [intros _; split; [exact Hv | apply Hnil] | intros _; apply Hnil].
  - destruct (vector_search_of overrides) eqn:Hv;
      destruct Hc as [Hc | (results & question & prompt & _ & _ & Hc)].
    + apply (Hgoal [Embed q (embed_model self) (embed_deployment self)
                      (embed_dimensions self)]
               [Search (if text_search_of overrides then q else PNone) vector
                  (top_of overrides)] []);
        auto; try (simpl; lia); try solve [repeat constructor].
      split; [intros _; split; [reflexivity | apply Hnil]
             | intros _; apply Hnil].
    + apply (Hgoal [Embed q (embed_model self) (embed_deployment self)
                      (embed_dimensions self)]
               [Search (if text_search_of overrides then q else PNone) vector
                  (top_of overrides)]
               [Create (create_request self overrides prompt)]);
        auto; try (simpl; lia); try solve [repeat constructor].
      split; [intros _; split; [reflexivity | apply Hnil]
             | intros _; apply Hnil].
    + apply (Hgoal []
               [Search (if text_search_of overrides then q else PNone) vector
                  (top_of overrides)] []);
        auto; try (simpl; lia); try solve [repeat constructor].
      split; [intros He; destruct He; reflexivity | intros [[=] _]].
    + apply (Hgoal []
               [Search (if text_search_of overrides then q else PNone) vector
                  (top_of overrides)]
               [Create (create_request self overrides prompt)]);
        auto; try (simpl; lia); try solve [repeat constructor].
      split; [intros He; destruct He; reflexivity | intros [[=] _]].
Qed.


(** Where a chat completion request of a run comes from: the run had a last
    message with a content, the embedding (when asked for) and the retrieval
    returned, and [build_messages] returned the messages of the request. *)
Lemma run_create_origin (self : SimpleRAGChat)
    (messages : list (gmap string pyval)) (overrides : gmap string pyval)
    (w : W) (request : CreateRequest PromptMessage) :
  Create request ∈ calls (run self messages overrides w) →
  ∃ m q vector w1 results w2 question,
    last messages = Some m
    ∧ m !! "content" = Some q
    ∧ embedded self overrides q w vector w1
    ∧ searcher_search (if text_search_of overrides then q else PNone) vector
        (top_of overrides) w1 = (Ok results, w2)
    ∧ py_add_str q SOURCES_HEADER = Ok question
    ∧ build_messages (chat_model self)
        (py_or (dict_get overrides "prompt_template" PNone)
               (PStr (answer_prompt_template self)))
        (question ++ sources_block results)%string
        (removelast messages) (chat_token_limit self - 1024)%Z true
      = Ok (req_messages request)
    ∧ request = create_request self overrides (req_messages request).
Proof.
  destruct (last messages) as [m |] eqn:Hl;
    [| rewrite run_without_message by exact Hl; intros []%elem_of_nil].
  destruct (m !! "content") as [q |] eqn:Hm;
    [| rewrite (run_without_content _ _ _ _ m) by assumption;
       intros []%elem_of_nil].
  unfold run, last_message, dict_getitem, embedded.
  rewrite Hl, bind_pure_ok, Hm, bind_pure_ok.
  destruct (vector_search_of overrides) eqn:Hv;
    repeat step_run; cbn [calls pure_step]; intros Hin;
    repeat (apply elem_of_cons in Hin as [Hin | Hin];
            [try discriminate Hin |]);
    try (apply elem_of_nil in Hin; destruct Hin);
    injection Hin as ->;
    exists m, q; do 5 eexists;
    (split; [reflexivity |]); (split; [exact Hm |]);
    (split; [first [eassumption | split; reflexivity] |]);
    (split; [eassumption |]);
    (split; [first [eassumption | reflexivity] |]);
    (split; [eassumption | reflexivity]).
Qed.

(** X15. Every chat completion a run asks for is for at most 1024 tokens, one
    completion, not streamed, at the temperature of the overrides (0.3 when
    they have none), from the deployment when it is a non-empty string and
    from the chat model otherwise; its messages are what [build_messages]
    returned for the history without the last message, a budget of the
    token limit minus 1024, and the new user message made of the content,
    the sources header and the sources block of the items the retriever
    returned to this run. *)
Theorem run_create_request (self : SimpleRAGChat)
    (messages : list (gmap string pyval)) (overrides : gmap string pyval)
    (w : W) (request : CreateRequest PromptMessage) :
  Create request ∈ calls (run self messages overrides w) →
  req_max_tokens request = 1024%Z
  ∧ req_n request = 1%Z
  ∧ req_stream request = false
  ∧ req_temperature request
    = default default_temperature (overrides !! "temperature")
  ∧ req_model request
    = match chat_deployment self with
      | Some d => if String.eqb d "" then chat_model self else d
      | None => chat_model self
      end
  ∧ ∃ m s vector w1 results w2,
      last messages = Some m
      ∧ m !! "content" = Some (PStr s)
      ∧ embedded self overrides (PStr s) w vector w1
      ∧ Search (if text_search_of overrides then PStr s else PNone) vector
          (top_of overrides) ∈ calls (run self messages overrides w)
      ∧ searcher_search (if text_search_of overrides then PStr s else PNone)
          vector (top_of overrides) w1 = (Ok results, w2)
      ∧ build_messages (chat_model self)
          (py_or (dict_get overrides "prompt_template" PNone)
                 (PStr (answer_prompt_template self)))
          (s ++ SOURCES_HEADER ++ sources_block results)%string
          (removelast messages) (chat_token_limit self - 1024)%Z true
        = Ok (req_messages request).
Proof.
  intros Hin.
  destruct (run_create_origin self messages overrides w request Hin)
    as (m & q & vector & w1 & results & w2 & question & Hl & Hm & Hemb
        & Hs & Hq & Hb & Hreq).
  rewrite Hreq. unfold create_request. cbn.
  split; [reflexivity |]. split; [reflexivity |]. split; [reflexivity |].
  split; [reflexivity |].
  split; [destruct (chat_deployment self) as [d |]; simpl;
          [destruct (String.eqb d "") |]; reflexivity |].
  destruct q; try discriminate Hq. injection Hq as <-.
  exists m, s, vector, w1, results, w2.
  split; [exact Hl |]. split; [exact Hm |]. split; [exact Hemb |].
  split.
  - pose proof (run_log self messages overrides w m (PStr s) Hl Hm) as Hlog.
    cbv zeta in Hlog. unfold embedded in Hemb.
    destruct (vector_search_of overrides).
    + rewrite Hemb in Hlog. destruct Hlog as (tail & -> & _).
      apply list_elem_of_further, list_elem_of_here.
    + destruct Hemb as [-> _]. destruct Hlog as (tail & -> & _).
      apply list_elem_of_here.
  - split; [exact Hs |].
    rewrite <- Hb, string_append_assoc. reflexivity.
Qed.

(** A run is the same for two overrides with the same search flags, [top],
    system prompt and temperature. *)
Lemma run_ext (self : SimpleRAGChat) (messages : list (gmap string pyval))
    (overrides overrides' : gmap string pyval) (w : W) :
  text_search_of overrides = text_search_of overrides' →
  vector_search_of overrides = vector_search_of overrides' →
  top_of overrides = top_of overrides' →
  py_or (dict_get overrides "prompt_template" PNone)
        (PStr (answer_prompt_template self))
  = py_or (dict_get overrides' "prompt_template" PNone)
          (PStr (answer_prompt_template self)) →
  dict_get overrides "temperature" default_temperature
  = dict_get overrides' "temperature" default_temperature →
  run self messages overrides w = run self messages overrides' w.
Proof.
  intros Ht Hv Htop Hp Htemp. unfold run, create_request.
  rewrite Ht, Hv, Htop, Hp, Htemp. reflexivity.
Qed.

(** X16. Of the overrides a run reads "retrieval_mode", "top",
    "prompt_template" and "temperature" and nothing else. *)
Theorem run_reads_four_overrides (self : SimpleRAGChat)
    (messages : list (gmap string pyval))
    (overrides overrides' : gmap string pyval) (w : W) :
  overrides !! "retrieval_mode" = overrides' !! "retrieval_mode" →
  overrides !! "top" = overrides' !! "top" →
  overrides !! "prompt_template" = overrides' !! "prompt_template" →
  overrides !! "temperature" = overrides' !! "temperature" →
  run self messages overrides w = run self messages overrides' w.
Proof.
  intros Hmode Htop Hp Htemp.
  apply run_ext;
    unfold text_search_of, vector_search_of, top_of, dict_get;
    rewrite ?Hmode, ?Htop, ?Hp, ?Htemp; reflexivity.
Qed.

(** X17. An override that is null counts as absent where the code compares or
    tests it: a "retrieval_mode" of [None] is the hybrid mode of no
    "retrieval_mode", and a "prompt_template" that is falsy (null, the empty
    string) leaves the built-in prompt in place. *)
Theorem run_null_override_is_absent (self : SimpleRAGChat)
    (messages : list (gmap string pyval)) (overrides : gmap string pyval)
    (w : W) :
  run self messages (<["retrieval_mode" := PNone]> overrides) w
  = run self messages (delete "retrieval_mode" overrides) w
  ∧ ∀ v, py_truthy v = false →
      run self messages (<["prompt_template" := v]> overrides) w
      = run self messages (delete "prompt_template" overrides) w.
Proof.
  split; [| intros v Hv]; apply run_ext;
    unfold text_search_of, vector_search_of, top_of, dict_get, py_or;
    rewrite ?lookup_insert_eq, ?lookup_delete_eq,
      ?lookup_insert_ne, ?lookup_delete_ne by discriminate;
    simpl; rewrite ?Hv; reflexivity.
Qed.

(** X18. Of the last message only the "content" is read (its role is not), and
    every message before it is history. *)
Theorem run_reads_content_of_last_message (self : SimpleRAGChat)
    (past : list (gmap string pyval)) (m m' : gmap string pyval)
    (overrides : gmap string pyval) (w : W) :
  m !! "content" = m' !! "content" →
  run self (past ++ [m]) overrides w = run self (past ++ [m']) overrides w.
Proof.
  intros H. unfold run, last_message, dict_getitem.
  rewrite !last_snoc, !removelast_last, !bind_pure_ok, H. reflexivity.
Qed.

(** X19. The response of a completed run holds the choices of the completion,
    unchanged and in order; the first one has a context and no other one
    has. *)
Theorem run_keeps_choices (self : SimpleRAGChat)
    (messages : list (gmap string pyval)) (overrides : gmap string pyval)
    (w : W) (resp : ChatResp) :
  returned (run self messages overrides w) = Ok resp →
  ∃ request completion w2 w3 first others,
    Create request ∈ calls (run self messages overrides w)
    ∧ chat_completions_create request w2 = (Ok completion, w3)
    ∧ map dumped (resp_choices resp) = choices completion
    ∧ resp_choices resp = first :: others
    ∧ is_Some (context first)
    ∧ Forall (λ c, context c = None) others.
Proof.
  intros Hresp.
  destruct (run_returns self messages overrides w resp Hresp)
    as (m & q & vector & w1 & results & w2 & question & prompt
        & completion & w3 & ch & others & _ & _ & _ & _ & _
        & _ & Hc & Hch & Hcalls & ->).
  do 6 eexists.
  split; [rewrite Hcalls; apply elem_of_app; right; right; left |].
  split; [exact Hc |].
  split; [rewrite Hch; cbn; f_equal; rewrite map_map; apply map_id |].
  split; [reflexivity |]. split; [eexists; reflexivity |].
  apply Forall_map. apply Forall_forall. reflexivity.
Qed.

(** X20. The sources block is empty exactly when nothing was retrieved. *)
Theorem sources_block_empty_iff (results : list Item) :
  sources_block results = "" ↔ results = [].
Proof.
  split; [| intros ->; reflexivity].
  destruct results as [| item results]; [reflexivity |].
  unfold sources_block, sources_content. cbn [map].
  destruct (map source_block results); unfold source_block; discriminate.
Qed.

End RagSimpleMore.

(* ===================================================================== *)
(** * Properties of the settings of [lifespan] *)
(* ===================================================================== *)

(** [endswith] is having the suffix at the end. *)
Lemma endswith_spec (s suffix : string) :
  endswith s suffix = true ↔ ∃ p, s = p ++ suffix.
Proof.
  induction s as [| c s IH]; cbn [endswith].
  - rewrite orb_false_r, String.eqb_eq. split.
    + intros <-. exists "". reflexivity.
    + intros [[| c p] Hp]; [exact Hp | discriminate Hp].
  - rewrite orb_true_iff, String.eqb_eq, IH. split.
    + intros [<- | [p ->]]; [exists "" | exists (String c p)]; reflexivity.
    + intros [[| a p] Hp].
      * left. exact Hp.
      * right. rewrite append_cons in Hp. injection Hp as _ ->.
        exists p. reflexivity.
Qed.

Section Lifespan.

Variable get_token : result string.

(** X21. The URI can be built exactly when the host, the user name and the
    database are set and the password can be had: from the token for a host
    under [.database.azure.com], from [POSTGRES_PASSWORD] for any other. *)
Theorem database_uri_succeeds_iff (environ : gmap string string) :
  (∃ uri, database_uri get_token environ = Ok uri) ↔
  ∃ host,
    environ !! "POSTGRES_HOST" = Some host
    ∧ is_Some (environ !! "POSTGRES_USERNAME")
    ∧ is_Some (environ !! "POSTGRES_DATABASE")
    ∧ if endswith host ".database.azure.com"
      then ∃ token, get_token = Ok token
      else is_Some (environ !! "POSTGRES_PASSWORD").
Proof.
  unfold database_uri, environ_getitem.
  destruct (environ !! "POSTGRES_HOST") as [host |];
    [| split; [intros [? [=]] | intros (? & [=] & _)]].
  destruct (environ !! "POSTGRES_USERNAME") as [user |];
    [| split; [intros [? [=]] | intros (? & _ & [? [=]] & _)]].
  destruct (environ !! "POSTGRES_DATABASE") as [db |];
    [| split; [intros [? [=]] | intros (? & _ & _ & [? [=]] & _)]].
  cbn [mbind result_bind].
  destruct (endswith host ".database.azure.com") eqn:Ha.
  - destruct get_token as [token | e]; cbn [mbind result_bind mret result_ret].
    + split; [intros _ | intros _; eexists; reflexivity].
      exists host. split; [reflexivity |].
      split; [eexists; reflexivity |]. split; [eexists; reflexivity |].
      rewrite Ha. eexists; reflexivity.
    + split; [intros [? [=]] |].
      intros (h & [= <-] & _ & _ & Hpw). rewrite Ha in Hpw.
      destruct Hpw as [? [=]].
  - destruct (environ !! "POSTGRES_PASSWORD") as [pw |];
      cbn [mbind result_bind mret result_ret].
    + split; [intros _ | intros _; eexists; reflexivity].
      exists host. split; [reflexivity |].
      split; [eexists; reflexivity |]. split; [eexists; reflexivity |].
      rewrite Ha. eexists; reflexivity.
    + split; [intros [? [=]] |].
      intros (h & [= <-] & _ & _ & Hpw). rewrite Ha in Hpw.
      destruct Hpw as [? [=]].
Qed.

(** X22. For a host under [.database.azure.com] the variable
    [POSTGRES_PASSWORD] is not read; for any other host the token is not
    asked for. *)
Theorem database_uri_password_source (environ : gmap string string)
    (host : string) :
  environ !! "POSTGRES_HOST" = Some host →
  (endswith host ".database.azure.com" = true →
   ∀ password,
     database_uri get_token (<["POSTGRES_PASSWORD" := password]> environ)
     = database_uri get_token (delete "POSTGRES_PASSWORD" environ))
  ∧ (endswith host ".database.azure.com" = false →
     ∀ get_token',
       database_uri get_token environ = database_uri get_token' environ).
Proof.
  intros Hh. unfold database_uri, environ_getitem. split.
  - intros Ha password.
    rewrite lookup_insert_eq, lookup_delete_eq.
    rewrite !lookup_insert_ne, !lookup_delete_ne by discriminate.
    rewrite Hh.
    destruct (environ !! "POSTGRES_USERNAME"); [| reflexivity].
    destruct (environ !! "POSTGRES_DATABASE"); [| reflexivity].
    cbn [mbind result_bind]. rewrite Ha. reflexivity.
  - intros Ha get_token'. rewrite Hh.
    destruct (environ !! "POSTGRES_USERNAME"); [| reflexivity].
    destruct (environ !! "POSTGRES_DATABASE"); [| reflexivity].
    cbn [mbind result_bind]. rewrite Ha. reflexivity.
Qed.

(** X23. A non-empty [POSTGRES_SSL] adds ["?ssl="] and its value to the URI
    built without it; an empty one adds nothing. *)
Theorem database_uri_ssl (environ : gmap string string) (ssl : string) :
  database_uri get_token (<["POSTGRES_SSL" := ssl]> environ)
  = uri ← database_uri get_token (delete "POSTGRES_SSL" environ);
    mret (if String.eqb ssl "" then uri else uri ++ "?ssl=" ++ ssl).
Proof.
  unfold database_uri, environ_getitem.
  rewrite lookup_insert_eq, lookup_delete_eq.
  rewrite !lookup_insert_ne, !lookup_delete_ne by discriminate.
  destruct (environ !! "POSTGRES_HOST") as [host |]; [| reflexivity].
  destruct (environ !! "POSTGRES_USERNAME") as [user |]; [| reflexivity].
  destruct (environ !! "POSTGRES_DATABASE") as [db |]; [| reflexivity].
  cbn [mbind result_bind].
  destruct (endswith host ".database.azure.com").
  - destruct get_token; [| reflexivity].
    cbn [mbind result_bind mret result_ret].
    destruct (String.eqb ssl ""); reflexivity.
  - destruct (environ !! "POSTGRES_PASSWORD"); [| reflexivity].
    cbn [mbind result_bind mret result_ret].
    destruct (String.eqb ssl ""); reflexivity.
Qed.

(** X24. The user name and the password go into the URI as they are: for a host
    outside of Azure, a colon can be moved from the user name to the
    password without changing the URI. *)
Theorem database_uri_not_escaped (environ : gmap string string)
    (host user x password : string) :
  environ !! "POSTGRES_HOST" = Some host →
  endswith host ".database.azure.com" = false →
  database_uri get_token
    (<["POSTGRES_USERNAME" := user ++ ":" ++ x]>
     (<["POSTGRES_PASSWORD" := password]> environ))
  = database_uri get_token
      (<["POSTGRES_USERNAME" := user]>
       (<["POSTGRES_PASSWORD" := x ++ ":" ++ password]> environ)).
Proof.
  intros Hh Ha. unfold database_uri, environ_getitem.
  rewrite !lookup_insert_eq.
  rewrite !(lookup_insert_ne _ "POSTGRES_USERNAME") by discriminate.
  rewrite !lookup_insert_eq.
  rewrite !(lookup_insert_ne _ "POSTGRES_PASSWORD") by discriminate.
  rewrite Hh.
  destruct (environ !! "POSTGRES_DATABASE") as [db |]; [| reflexivity].
  cbn [mbind result_bind mret result_ret]. rewrite Ha.
  cbn [mbind result_bind mret result_ret].
  rewrite !string_append_assoc. reflexivity.
Qed.

End Lifespan.

(* ===================================================================== *)
(** * The further properties on the sample catalogue *)
(* ===================================================================== *)

Section MoreExamples.

Import Sample SampleMore.
Open Scope list_scope.

(** X2: At most two filters for the one [search_database] invocation. *)
Lemma extract_filters_bounded_example :
  Forall (λ f, column f = "price" ∨ column f = "brand")
    [mkFilter "price" (PStr ">") (PInt 30);
     mkFilter "brand" (PStr "==") (PStr "AirStrider")]
  ∧ (2 ≤ 2 * invocations_read [other_call; search_call payload_filters])%nat.
Proof.
  apply (extract_filters_bounded SampleMore.json_loads
           (completion_with None
              (Some [other_call; search_call payload_filters]))
           (mkChoice (mkMessage None
              (Some [other_call; search_call payload_filters]))) []
           (PStr "shoes")).
  - reflexivity.
  - vm_compute. reflexivity.
Defined.

(** X3: A second invocation without [search_query] resets the query of the
    first one to [None]. *)
Lemma extract_query_of_last_invocation_example :
  extract_search_arguments SampleMore.json_loads
    (completion_with None
       (Some [search_call payload_query; search_call payload_price_only]))
  = Ok (PNone, [mkFilter "price" (PStr "<") (PInt 50)])
  ∧ ∃ d, SampleMore.json_loads payload_price_only = Ok (PDict d)
         ∧ PNone = dict_get d "search_query" PNone.
Proof.
  split; [vm_compute; reflexivity |].
  apply (extract_query_of_last_invocation SampleMore.json_loads
           (completion_with None
              (Some [search_call payload_query;
                     search_call payload_price_only]))
           (mkChoice (mkMessage None
              (Some [search_call payload_query;
                     search_call payload_price_only]))) []
           [search_call payload_query] [] (search_call payload_price_only)
           PNone [mkFilter "price" (PStr "<") (PInt 50)]).
  - reflexivity.
  - reflexivity.
  - reflexivity.
  - reflexivity.
  - constructor.
  - vm_compute. reflexivity.
Defined.

(** X4: The payload [null]. *)
Lemma extract_non_object_payload_example :
  extract_search_arguments SampleMore.json_loads
    (completion_with None (Some [search_call payload_null]))
  = Raise AttributeError.
Proof.
  apply (extract_non_object_payload SampleMore.json_loads _
           (mkChoice (mkMessage None (Some [search_call payload_null]))) []
           [] [] (search_call payload_null) PNone).
  - reflexivity.
  - reflexivity.
  - constructor.
  - reflexivity.
  - reflexivity.
  - vm_compute. reflexivity.
  - discriminate.
Defined.

(** X5: A [price_filter] that is null, and one without [value]. *)
Lemma extract_price_filter_errors_example :
  extract_search_arguments SampleMore.json_loads
    (completion_with None (Some [search_call payload_null_price]))
  = Raise TypeError
  ∧ extract_search_arguments SampleMore.json_loads
      (completion_with None
         (Some [search_call payload_price_without_value]))
    = Raise (KeyError "value").
Proof.
  split.
  - apply (proj1 (extract_price_filter_errors SampleMore.json_loads
                    (completion_with None
                       (Some [search_call payload_null_price]))
                    (mkChoice (mkMessage None
                       (Some [search_call payload_null_price]))) []
                    [] [] (search_call payload_null_price)
                    (<["price_filter" := PNone]> ∅) PNone
                    eq_refl eq_refl (List.Forall_nil _) eq_refl eq_refl
                    eq_refl eq_refl)).
    discriminate.
  - apply (proj2 (proj2
             (extract_price_filter_errors SampleMore.json_loads
                (completion_with None
                   (Some [search_call payload_price_without_value]))
                (mkChoice (mkMessage None
                   (Some [search_call payload_price_without_value]))) []
                [] [] (search_call payload_price_without_value)
                (<["search_query" := PStr "shoes"]>
                 (<["price_filter" :=
                      PDict (<["comparison_operator" := PStr ">"]> ∅)]> ∅))
                (PDict (<["comparison_operator" := PStr ">"]> ∅))
                eq_refl eq_refl (List.Forall_nil _) eq_refl eq_refl
                eq_refl eq_refl))
             (<["comparison_operator" := PStr ">"]> ∅) (PStr ">")).
    + reflexivity.
    + reflexivity.
    + reflexivity.
Defined.

(** X6: A decoder that also accepts the payload of the unrelated invocation
    gives the same result. *)
Lemma extract_decodes_only_read_invocations_example :
  extract_search_arguments Sample.json_loads
    (completion_with None (Some [other_call; search_call payload_query]))
  = extract_search_arguments
      (λ s, if String.eqb s "{}" then Ok (PDict ∅) else Sample.json_loads s)
      (completion_with None (Some [other_call; search_call payload_query])).
Proof.
  apply extract_decodes_only_read_invocations.
  intros choice0 rest tools tool [= <- <-] [= <-] Hin Hty Hn.
  apply elem_of_cons in Hin as [-> | Hin]; [discriminate Hn |].
  apply elem_of_cons in Hin as [-> | []%elem_of_nil].
  reflexivity.
Defined.

(** X7: A decoder that leaves a further key in the object gives the same
    result. *)
Lemma extract_reads_three_keys_example :
  extract_search_arguments Sample.json_loads
    (completion_with None (Some [search_call payload_query]))
  = extract_search_arguments
      (λ s, Ok (PDict (<["search_query" := PStr "red shoes"]>
                      (<["note" := PStr "in stock"]> ∅))))
      (completion_with None (Some [search_call payload_query])).
Proof.
  apply extract_reads_three_keys.
  intros choice0 rest tools tool [= <- <-] [= <-] Hin Hty Hn.
  apply elem_of_cons in Hin as [-> | []%elem_of_nil].
  do 2 eexists. split; [vm_compute; reflexivity |].
  split; [reflexivity |]. repeat split; vm_compute; reflexivity.
Defined.

(** X8: A content of three spaces. *)
Lemma extract_blank_content_example :
  extract_search_arguments Sample.json_loads (completion_with (Some "   ") None)
  = Ok (PStr "", []).
Proof.
  apply (extract_blank_content Sample.json_loads _
           (mkChoice (mkMessage (Some "   ") None)) [] "   ").
  - reflexivity.
  - left. reflexivity.
  - reflexivity.
  - discriminate.
  - reflexivity.
Defined.

End MoreExamples.

Section MoreRunExamples.

Import Sample SampleMore.
Open Scope list_scope.

(** X10: A message without "content". *)
Lemma run_rejects_missing_content_example :
  run chat ([] ++ [no_content]) ∅ 0%nat
  = mkOutcome (Raise (KeyError "content")) 0%nat [].
Proof.
  apply (proj2 (run_rejects_missing_content chat ∅ 0%nat) [] no_content).
  reflexivity.
Defined.

(** X11: A retriever that refuses the connection, in the default hybrid mode. *)
Lemma run_service_error_ends_run_example :
  @run nat Product (string * pyval) product_model token_helper
    failing_search chat [user_says "red shoes"] ∅ 0%nat
  = mkOutcome (Raise (ServiceError "connection refused")) 2%nat
      [Embed (PStr "red shoes") "text-embedding-3-small" None 1536;
       Search (PStr "red shoes") [1 # 2; 1 # 4] (PInt 3)].
Proof.
  etransitivity.
  - apply (proj1 (proj2
             (@run_service_error_ends_run nat Product (string * pyval)
                product_model token_helper failing_search chat
                [user_says "red shoes"] ∅ 0%nat (user_says "red shoes")
                (PStr "red shoes") eq_refl eq_refl))
             [1 # 2; 1 # 4] 1%nat (ServiceError "connection refused")
             2%nat); reflexivity.
  - reflexivity.
Defined.

(** X12: A content that is the number 5, in text mode. *)
Lemma run_prompt_failure_skips_completion_example :
  run chat [content_five] text_mode 0%nat
  = mkOutcome (Raise TypeError) 1%nat [Search (PInt 5) [] (PInt 3)].
Proof.
  etransitivity.
  - refine (proj1
              (run_prompt_failure_skips_completion chat [content_five]
                 text_mode 0%nat content_five (PInt 5) [] 0%nat
                 [runner; boot] 1%nat _ _ _ _) _);
      first [reflexivity | split; reflexivity | discriminate].
  - reflexivity.
Defined.

(** X13: A completion with an empty list of choices. *)
Lemma run_completion_without_choice_example :
  returned
    (@run nat Product (string * pyval) product_model token_helper
       no_choice_chat chat [user_says "red shoes"] text_mode 0%nat)
  = Raise IndexError.
Proof.
  rewrite (@run_completion_without_choice nat Product (string * pyval)
             product_model token_helper no_choice_chat chat
             [user_says "red shoes"] text_mode
             0%nat (user_says "red shoes") (PStr "red shoes") [] 0%nat
             [runner; boot] 1%nat ("red shoes" ++ SOURCES_HEADER)%string
             [("system", PStr "Answer from the sources.");
              ("user", PStr ("red shoes" ++ SOURCES_HEADER
                             ++ sources_block [runner; boot])%string)]
             (mkChatCompletion []) 2%nat);
    first [reflexivity | split; reflexivity].
Defined.

(** X14: The calls of a default run, split by service. *)
Lemma run_calls_ordered_example :
  ∃ embeds searches creates,
    calls (run chat [user_says "red shoes"] ∅ 0%nat)
    = embeds ++ searches ++ creates
    ∧ (length embeds ≤ 1 ∧ length searches ≤ 1 ∧ length creates ≤ 1)%nat.
Proof.
  destruct (run_calls_ordered chat [user_says "red shoes"] ∅ 0%nat)
    as (embeds & searches & creates & Hc & _ & _ & _ & Hlen & _).
  exists embeds, searches, creates. split; [exact Hc | exact Hlen].
Defined.

(** X15: The request of a default run. *)
Lemma run_create_request_example :
  ∃ request,
    Create request ∈ calls (run chat [user_says "red shoes"] ∅ 0%nat)
    ∧ req_max_tokens request = 1024%Z
    ∧ req_model request = "gpt-4o-mini".
Proof.
  eexists. split; [do 2 apply list_elem_of_further; apply list_elem_of_here |].
  match goal with
  | |- req_max_tokens ?r = _ ∧ _ =>
      destruct (run_create_request chat [user_says "red shoes"] ∅ 0%nat r)
        as (Hmax & _ & _ & _ & Hmodel & _)
  end.
  - do 2 apply list_elem_of_further. apply list_elem_of_here.
  - split; [exact Hmax | exact Hmodel].
Defined.

(** X16: An override the run does not know changes nothing. *)
Lemma run_reads_four_overrides_example :
  run chat [user_says "red shoes"] (<["seed" := PInt 7]> ∅) 0%nat
  = run chat [user_says "red shoes"] ∅ 0%nat.
Proof.
  apply run_reads_four_overrides; reflexivity.
Defined.

(** X17: An empty prompt template is the built-in one. *)
Lemma run_null_override_is_absent_example :
  run chat [user_says "red shoes"] (<["prompt_template" := PStr ""]> ∅)
    0%nat
  = run chat [user_says "red shoes"] (delete "prompt_template" ∅) 0%nat.
Proof.
  apply (proj2 (run_null_override_is_absent chat [user_says "red shoes"] ∅
                  0%nat) (PStr "")).
  reflexivity.
Defined.

(** X18: A last message of the assistant is taken as the question all the
    same. *)
Lemma run_reads_content_of_last_message_example :
  run chat ([] ++ [user_says "red shoes"]) ∅ 0%nat
  = run chat
      ([] ++ [assistant_says "red shoes"]) ∅ 0%nat.
Proof.
  apply run_reads_content_of_last_message. reflexivity.
Defined.

(** X19: A completion with two choices: both are returned, the second without a
    context. *)
Lemma run_keeps_choices_example :
  ∃ resp first others,
    returned
      (@run nat Product (string * pyval) product_model token_helper
         two_choice_chat chat [user_says "red shoes"] ∅ 0%nat) = Ok resp
    ∧ resp_choices resp = first :: others
    ∧ length others = 1%nat
    ∧ Forall (λ c, context c = None) others.
Proof.
  destruct (returned
              (@run nat Product (string * pyval) product_model token_helper
                 two_choice_chat chat [user_says "red shoes"] ∅ 0%nat))
    as [resp |] eqn:Hresp; [| discriminate Hresp].
  destruct (@run_keeps_choices nat Product (string * pyval) product_model
              token_helper two_choice_chat chat [user_says "red shoes"] ∅
              0%nat resp Hresp)
    as (request & completion & w2 & w3 & first & others & _ & Hc & Hmap
        & Hch & _ & Hnone).
  exists resp, first, others. split; [reflexivity |].
  split; [exact Hch |]. split; [| exact Hnone].
  injection Hc as <- _. rewrite Hch in Hmap.
  apply (f_equal length) in Hmap. cbn in Hmap. rewrite length_map in Hmap.
  injection Hmap as ->. reflexivity.
Defined.

(** X20: No product, no sources. *)
Lemma sources_block_empty_iff_example :
  sources_block (@nil Product) = "" ∧ sources_block [runner] ≠ "".
Proof.
  split.
  - apply sources_block_empty_iff. reflexivity.
  - intros H. apply sources_block_empty_iff in H. discriminate H.
Defined.

(** X21: A local database needs its password, an Azure one a token. *)
Lemma database_uri_succeeds_iff_example :
  (∃ uri, database_uri (Raise (ServiceError "no credential")) local_environ
          = Ok uri)
  ∧ ¬ ∃ uri, database_uri (Raise (ServiceError "no credential"))
               azure_environ = Ok uri.
Proof.
  split.
  - apply database_uri_succeeds_iff. exists "localhost".
    split; [reflexivity |]. split; [eexists; reflexivity |].
    split; [eexists; reflexivity |]. eexists; reflexivity.
  - intros H. apply database_uri_succeeds_iff in H
      as (host & Hh & _ & _ & Hpw).
    vm_compute in Hh. injection Hh as <-.
    vm_compute in Hpw. destruct Hpw as [token [=]].
Defined.

(** X22: The Azure database ignores [POSTGRES_PASSWORD]; the local one never
    asks for a token. *)
Lemma database_uri_password_source_example :
  database_uri (Ok "tok") (<["POSTGRES_PASSWORD" := "secret"]> azure_environ)
  = database_uri (Ok "tok") (delete "POSTGRES_PASSWORD" azure_environ)
  ∧ database_uri (Ok "tok") local_environ
    = database_uri (Raise (ServiceError "no credential")) local_environ.
Proof.
  split.
  - apply (proj1 (database_uri_password_source (Ok "tok") azure_environ
                    "shop.postgres.database.azure.com" eq_refl)).
    reflexivity.
  - apply (proj2 (database_uri_password_source (Ok "tok") local_environ
                    "localhost" eq_refl)).
    reflexivity.
Defined.

(** X24: The user "admin:x" with the password "y" and the user "admin" with the
    password "x:y" give one URI. *)
Lemma database_uri_not_escaped_example :
  database_uri (Ok "tok")
    (<["POSTGRES_USERNAME" := ("admin" ++ ":" ++ "x")%string]>
     (<["POSTGRES_PASSWORD" := "y"]> local_environ))
  = database_uri (Ok "tok")
      (<["POSTGRES_USERNAME" := "admin"]>
       (<["POSTGRES_PASSWORD" := ("x" ++ ":" ++ "y")%string]>
        local_environ)).
Proof.
  apply (database_uri_not_escaped (Ok "tok") local_environ "localhost").
  - reflexivity.
  - reflexivity.
Defined.

End MoreRunExamples.

(* ===================================================================== *)
(** * Responses with several [search_database] invocations *)
(* ===================================================================== *)

Section SeveralInvocations.

Import Sample.
Open Scope list_scope.

(** C5: a response that contains an invocation setting only
    [search_query], after one that carries two filters. The query is the
    one of the invocation, the filter list is not empty. *)
Lemma extract_query_only_not_alone :
  let tools := [search_call payload_filters; search_call payload_query] in
  search_call payload_query ∈ tools
  ∧ type (search_call payload_query) = "function"
  ∧ name (function (search_call payload_query)) = "search_database"
  ∧ json_loads (arguments (function (search_call payload_query)))
    = Ok (PDict (<["search_query" := PStr "red shoes"]> ∅))
  ∧ extract_search_arguments json_loads (completion_with None (Some tools))
    ≠ Ok (PStr "red shoes", []).
Proof.
  split; [apply list_elem_of_further, list_elem_of_here |].
  split; [reflexivity |]. split; [reflexivity |].
  split; [vm_compute; reflexivity |].
  vm_compute. discriminate.
Qed.

(** C6: a response that contains two invocations, each with a
    [price_filter] and a [brand_filter]. Four filters are returned. *)
Lemma extract_price_then_brand_not_alone :
  let tools := [search_call payload_filters; search_call payload_filters] in
  let price := mkFilter "price" (PStr ">") (PInt 30) in
  let brand := mkFilter "brand" (PStr "==") (PStr "AirStrider") in
  search_call payload_filters ∈ tools
  ∧ type (search_call payload_filters) = "function"
  ∧ name (function (search_call payload_filters)) = "search_database"
  ∧ json_loads (arguments (function (search_call payload_filters)))
    = Ok (PDict (<["search_query" := PStr "shoes"]>
                (<["price_filter" := PDict price_over_30]>
                (<["brand_filter" := PDict brand_airstrider]> ∅))))
  ∧ extract_search_arguments json_loads (completion_with None (Some tools))
    = Ok (PStr "shoes", [price; brand; price; brand])
  ∧ ∀ q, extract_search_arguments json_loads
           (completion_with None (Some tools))
         ≠ Ok (q, [price; brand]).
Proof.
  split; [apply list_elem_of_here |].
  split; [reflexivity |]. split; [reflexivity |].
  split; [vm_compute; reflexivity |].
  split; [vm_compute; reflexivity |].
  intros q. vm_compute. discriminate.
Qed.

End SeveralInvocations.
